(** * SU2 structural output: field catalogues, data loaders and write gates

    A shallow embedding of [SU2_CFD/src/output/output_elasticity.cpp]
    (class [CElasticityOutput], SU2 6.2.0) and the properties of its field
    catalogues ([SetHistoryOutputFields], [SetVolumeOutputFields]), its data
    loaders ([LoadHistoryData], [LoadVolumeData]) and its write gates
    ([WriteScreen_Header], [WriteScreen_Output], [WriteHistoryFile_Output]).

    Conventions.
    - C++ integers ([unsigned short], [unsigned long]) are [Z]; the one place
      where the source does arithmetic on them ([WriteScreen_Header]) writes
      the wrap-around out.
    - [su2double] is IEEE binary64, Rocq's primitive [float].
    - Member functions that mutate the containers of the base class are
      state transformers in the monad [M]; a member function that only
      reads the object takes it as an argument.
    - Pointer arrays handed in by the caller ([solver], [node], the stress
      vector) are total functions of the index. *)

From stdpp Require Import base option list gmap strings pretty.
From Stdlib Require Import ZArith Lia.
From Stdlib Require Floats.PrimFloat Floats.SpecFloat Floats.FloatOps.

Local Open Scope string_scope.
Local Open Scope Z_scope.

(** ** State and error monad *)

Inductive result (A : Type) : Type :=
| Ok (a : A)
| Err (msg : string).
Arguments Ok {A} a.
Arguments Err {A} msg.

Definition M (S : Type) : Type → Type := λ A, S → result (A * S).

#[global] Instance M_ret {S} : MRet (M S) := λ A a s, Ok (a, s).

#[global] Instance M_bind {S} : MBind (M S) := λ A B k m s,
  match m s with
  | Ok (a, s') => k a s'
  | Err e => Err e
  end.

Definition modify {S} (f : S → S) : M S unit := λ s, Ok (tt, f s).

Definition raise {S A} (msg : string) : M S A := λ _, Err msg.

(** [if (b) stmt;] with no [else]. *)
Definition when {S} (b : bool) (m : M S unit) : M S unit :=
  if b then m else mret tt.

(** Final state of a run, if it did not abort. *)
Definition exec {S A} (m : M S A) (s : S) : option S :=
  match m s with
  | Ok (_, s') => Some s'
  | Err _ => None
  end.

(** ** Numbers *)

Abbreviation su2double := PrimFloat.float.

(** Conversion of an integer counter to [su2double] (round to nearest even),
    as done implicitly when an [unsigned long] is passed for a [su2double]. *)
Definition su2double_of_Z (z : Z) : su2double :=
  FloatOps.SF2Prim (SpecFloat.binary_normalize FloatOps.prec FloatOps.emax z 0 false).

(** ** Enumerators declared outside this translation unit

    The enumerators that [output_elasticity.cpp] compares against come from
    [option_structure.hpp]. They are parameters here; nothing is assumed of
    them but that the two deformation regimes are different values. *)

Class OptionStructure := {
  SMALL_DEFORMATIONS : Z;
  LARGE_DEFORMATIONS : Z;
  DYNAMIC : Z;
  FEA_SOL : nat;
  deformations_distinct : SMALL_DEFORMATIONS ≠ LARGE_DEFORMATIONS
}.

(** The values SU2 gives them. *)
Definition su2_option_structure : OptionStructure :=
  {| SMALL_DEFORMATIONS := 0; LARGE_DEFORMATIONS := 1; DYNAMIC := 1;
     FEA_SOL := 0%nat;
     deformations_distinct := ltac:(discriminate) |}.

(** ** External collaborators, at their interface *)

(** The accessors of [CConfig] that this file calls. *)
Record CConfig := {
  GetGeometricConditions : Z;
  GetTime_Domain : bool;
  GetDynamic_Analysis : Z;
  GetiZone : Z;
  GetVolume_FileName : string;
  GetSurfCoeff_FileName : string;
  GetRestart_FileName : string;
  GetIntIter : Z;
  GetExtIter : Z;
  GetWrt_Con_Freq : Z;
  GetMultizone_Problem : bool;
  GetWrt_ZoneConv : bool
}.

Record CPoint := { GetCoord : Z → su2double }.

Record CGeometry := {
  GetnDim : Z;
  geometry_node : Z → CPoint
}.

Record CVariable := {
  GetSolution : Z → su2double;
  GetSolution_Vel : Z → su2double;
  GetSolution_Accel : Z → su2double;
  GetStress_FEM : Z → su2double;
  GetVonMises_Stress : su2double
}.

Record CSolver := {
  GetRes_RMS : Z → su2double;
  GetRes_FEM : Z → su2double;
  GetRes_BGS : Z → su2double;
  GetTotal_CFEA : su2double;
  GetLoad_Increment : su2double;
  GetForceCoeff : su2double;
  solver_node : Z → CVariable
}.

(** ** The object *)

(** The members of the base class [COutput] that this file reads or
    assigns, as the base-class constructor [COutput(config)] leaves them. *)
Record COutput := {
  multizone : bool;
  RequestedHistoryFields : list string;
  nRequestedHistoryFields : Z;
  RequestedScreenFields : list string;
  nRequestedScreenFields : Z;
  RequestedVolumeFields : list string;
  nRequestedVolumeFields : Z;
  MultiZoneHeaderString : string;
  VolumeFilename : string;
  SurfaceFilename : string;
  RestartFilename : string;
  Conv_Field : string;
  curr_TimeIter : Z;
  curr_InnerIter : Z;
  curr_OuterIter : Z
}.

Record CElasticityOutput := {
  output :> COutput;
  linear_analysis : bool;
  nonlinear_analysis : bool;
  dynamic : bool;
  nDim : Z;
  (** [None]: never assigned. *)
  nVar_FEM : option Z
}.

(** [v.push_back(x)]. *)
Definition push_back {A} (v : list A) (x : A) : list A := v ++ [x].

(** [if (b) v.push_back(x);]. *)
Definition push_back_if {A} (b : bool) (v : list A) (x : A) : list A :=
  if b then push_back v x else v.

(** [v.size()]. *)
Definition size_of {A} (v : list A) : Z := Z.of_nat (length v).

Section Constructor.
Context `{OptionStructure}.

Definition CElasticityOutput_ctor
    (base : COutput) (config : CConfig) (geometry : CGeometry) (val_iZone : Z)
  : CElasticityOutput :=
  let linear_analysis := GetGeometricConditions config =? SMALL_DEFORMATIONS in
  let nonlinear_analysis := GetGeometricConditions config =? LARGE_DEFORMATIONS in
  let dynamic := GetTime_Domain config || (GetDynamic_Analysis config =? DYNAMIC) in
  let nDim := GetnDim geometry in
  (* Initialize number of variables *)
  let nVar_FEM := if linear_analysis then Some nDim else None in
  let nVar_FEM := if nonlinear_analysis then Some 3 else nVar_FEM in
  (* Default fields for screen output *)
  let RequestedHistoryFields :=
    if nRequestedHistoryFields base =? 0
    then push_back (push_back (RequestedHistoryFields base) "ITER") "RMS_RES"
    else RequestedHistoryFields base in
  let nRequestedHistoryFields :=
    if nRequestedHistoryFields base =? 0
    then size_of RequestedHistoryFields
    else nRequestedHistoryFields base in
  (* Default fields for screen output *)
  let RequestedScreenFields :=
    if nRequestedScreenFields base =? 0
    then
      let v := RequestedScreenFields base in
      let v := push_back_if dynamic v "TIME_ITER" in
      let v := push_back_if (multizone base) v "OUTER_ITER" in
      let v := push_back v "INNER_ITER" in
      let v := if linear_analysis
               then push_back (push_back (push_back v "RMS_DISP_X") "RMS_DISP_Y") "RMS_DISP_Z"
               else v in
      let v := if nonlinear_analysis
               then push_back (push_back (push_back v "RMS_UTOL") "RMS_RTOL") "RMS_ETOL"
               else v in
      push_back v "VMS"
    else RequestedScreenFields base in
  let nRequestedScreenFields :=
    if nRequestedScreenFields base =? 0
    then size_of RequestedScreenFields
    else nRequestedScreenFields base in
  (* Default fields for volume output *)
  let RequestedVolumeFields :=
    if nRequestedVolumeFields base =? 0
    then push_back (push_back (push_back (RequestedVolumeFields base)
                                 "COORDINATES") "SOLUTION") "STRESS"
    else RequestedVolumeFields base in
  let nRequestedVolumeFields :=
    if nRequestedVolumeFields base =? 0
    then size_of RequestedVolumeFields
    else nRequestedVolumeFields base in
  let MultiZoneHeaderString := "Zone " +:+ pretty (GetiZone config) +:+ " (Structure)" in
  {| output := {|
       multizone := multizone base;
       RequestedHistoryFields := RequestedHistoryFields;
       nRequestedHistoryFields := nRequestedHistoryFields;
       RequestedScreenFields := RequestedScreenFields;
       nRequestedScreenFields := nRequestedScreenFields;
       RequestedVolumeFields := RequestedVolumeFields;
       nRequestedVolumeFields := nRequestedVolumeFields;
       MultiZoneHeaderString := MultiZoneHeaderString;
       (* Set the volume, surface and restart filenames *)
       VolumeFilename := GetVolume_FileName config;
       SurfaceFilename := GetSurfCoeff_FileName config;
       RestartFilename := GetRestart_FileName config;
       (* Set the default convergence field *)
       Conv_Field := if (String.length (Conv_Field base) =? 0)%nat
                     then "RMS_DISP_X" else Conv_Field base;
       curr_TimeIter := curr_TimeIter base;
       curr_InnerIter := curr_InnerIter base;
       curr_OuterIter := curr_OuterIter base |};
     linear_analysis := linear_analysis;
     nonlinear_analysis := nonlinear_analysis;
     dynamic := dynamic;
     nDim := nDim;
     nVar_FEM := nVar_FEM |}.

End Constructor.

(** ** Field catalogue *)

Inductive format_class := FORMAT_INTEGER | FORMAT_FIXED | FORMAT_SCIENTIFIC.

Inductive field_kind := TYPE_DEFAULT | TYPE_RESIDUAL.

Record HistoryOutputField := {
  history_name : string;
  history_label : string;
  history_format : format_class;
  history_group : string;
  history_kind : field_kind
}.

Record VolumeOutputField := {
  volume_name : string;
  volume_label : string;
  volume_group : string
}.

(** Modelled from the spec: [COutput::AddHistoryOutput] is a member of the
    base class [COutput], which [output_elasticity.cpp] calls and does not
    define. A catalogue is an ordered sequence of field descriptors
    (identifier, display label, format class, group tag, kind) in
    registration order; registering a field appends its descriptor. *)
Definition AddHistoryOutput
    (name field_name : string) (format : format_class) (groupname : string)
    (field_type : field_kind) : M (list HistoryOutputField) unit :=
  modify (λ cat, push_back cat
    {| history_name := name; history_label := field_name;
       history_format := format; history_group := groupname;
       history_kind := field_type |}).

(** Modelled from the spec: [COutput::AddVolumeOutput] is a member of the
    base class [COutput], which [output_elasticity.cpp] calls and does not
    define; as [AddHistoryOutput], for the volume catalogue (identifier,
    display label, group tag). *)
Definition AddVolumeOutput (name field_name groupname : string)
  : M (list VolumeOutputField) unit :=
  modify (λ cat, push_back cat
    {| volume_name := name; volume_label := field_name;
       volume_group := groupname |}).

Definition SetHistoryOutputFields (this : CElasticityOutput) (config : CConfig)
  : M (list HistoryOutputField) unit :=
  (* Iteration numbers *)
  AddHistoryOutput "TIME_ITER" "Time_Iter" FORMAT_INTEGER "ITER" TYPE_DEFAULT;;
  AddHistoryOutput "OUTER_ITER" "Outer_Iter" FORMAT_INTEGER "ITER" TYPE_DEFAULT;;
  AddHistoryOutput "INNER_ITER" "Inner_Iter" FORMAT_INTEGER "ITER" TYPE_DEFAULT;;
  (* Misc. *)
  AddHistoryOutput "PHYS_TIME" "Time(min)" FORMAT_SCIENTIFIC "PHYS_TIME" TYPE_DEFAULT;;
  AddHistoryOutput "LINSOL_ITER" "Linear_Solver_Iterations" FORMAT_INTEGER "LINSOL_ITER" TYPE_DEFAULT;;
  (* Residuals *)
  AddHistoryOutput "RMS_UTOL" "rms[U]" FORMAT_FIXED "RMS_RES" TYPE_RESIDUAL;;
  AddHistoryOutput "RMS_RTOL" "rms[R]" FORMAT_FIXED "RMS_RES" TYPE_RESIDUAL;;
  AddHistoryOutput "RMS_ETOL" "rms[E]" FORMAT_FIXED "RMS_RES" TYPE_RESIDUAL;;
  AddHistoryOutput "RMS_DISP_X" "rms[DispX]" FORMAT_FIXED "RMS_RES" TYPE_RESIDUAL;;
  AddHistoryOutput "RMS_DISP_Y" "rms[DispY]" FORMAT_FIXED "RMS_RES" TYPE_RESIDUAL;;
  AddHistoryOutput "RMS_DISP_Z" "rms[DispZ]" FORMAT_FIXED "RMS_RES" TYPE_RESIDUAL;;
  AddHistoryOutput "BGS_DISP_X" "bgs[DispX]" FORMAT_FIXED "BGS_RES" TYPE_RESIDUAL;;
  AddHistoryOutput "BGS_DISP_Y" "bgs[DispY]" FORMAT_FIXED "BGS_RES" TYPE_RESIDUAL;;
  AddHistoryOutput "BGS_DISP_Z" "bgs[DispZ]" FORMAT_FIXED "BGS_RES" TYPE_RESIDUAL;;
  AddHistoryOutput "VMS" "VonMises" FORMAT_SCIENTIFIC "VMS" TYPE_DEFAULT;;
  AddHistoryOutput "LOAD_INCREMENT" "Load_Increment" FORMAT_FIXED "LOAD_INCREMENT" TYPE_DEFAULT;;
  AddHistoryOutput "LOAD_RAMP" "Load_Ramp" FORMAT_FIXED "LOAD_RAMP" TYPE_DEFAULT.

Definition SetVolumeOutputFields (this : CElasticityOutput) (config : CConfig)
  : M (list VolumeOutputField) unit :=
  (* Grid coordinates *)
  AddVolumeOutput "COORD-X" "x" "COORDINATES";;
  AddVolumeOutput "COORD-Y" "y" "COORDINATES";;
  when (nDim this =? 3)
    (AddVolumeOutput "COORD-Z" "z" "COORDINATES");;
  AddVolumeOutput "DISPLACEMENT-X" "Displacement_x" "SOLUTION";;
  AddVolumeOutput "DISPLACEMENT-Y" "Displacement_y" "SOLUTION";;
  when (nDim this =? 3) (AddVolumeOutput "DISPLACEMENT-Z" "Displacement_z" "SOLUTION");;
  AddVolumeOutput "VELOCITY-X" "Velocity_x" "VELOCITY";;
  AddVolumeOutput "VELOCITY-Y" "Velocity_y" "VELOCITY";;
  when (nDim this =? 3) (AddVolumeOutput "VELOCITY-Z" "Velocity_z" "VELOCITY");;
  AddVolumeOutput "ACCELERATION-X" "Acceleration_x" "ACCELERATION";;
  AddVolumeOutput "ACCELERATION-Y" "Acceleration_y" "ACCELERATION";;
  when (nDim this =? 3) (AddVolumeOutput "ACCELERATION-Z" "Acceleration_z" "ACCELERATION");;
  AddVolumeOutput "STRESS-XX" "Sxx" "STRESS";;
  AddVolumeOutput "STRESS-YY" "Syy" "STRESS";;
  AddVolumeOutput "STRESS-XY" "Sxy" "STRESS";;
  when (nDim this =? 3) (
    AddVolumeOutput "STRESS-ZZ" "Szz" "STRESS";;
    AddVolumeOutput "STRESS-XZ" "Sxz" "STRESS";;
    AddVolumeOutput "STRESS-YZ" "Syz" "STRESS"
  );;
  AddVolumeOutput "VON_MISES_STRESS" "Von_Mises_Stress" "STRESS".

(** The identifiers of the catalogue a builder produces from scratch, in
    registration order; [None] if the builder aborts. *)
Definition history_catalog (this : CElasticityOutput) (config : CConfig)
  : option (list string) :=
  map history_name <$> exec (SetHistoryOutputFields this config) [].

Definition volume_catalog (this : CElasticityOutput) (config : CConfig)
  : option (list string) :=
  map volume_name <$> exec (SetVolumeOutputFields this config) [].

(** ** Write gate *)

Section WriteGate.
(** [CConfig::GetIntIter], [GetExtIter] and [GetWrt_Con_Freq] return
    [unsigned long]; its number of values depends on the platform and is a
    parameter. *)
Variable ulong_modulus : Z.

Definition WriteHistoryFile_Output (this : CElasticityOutput) (config : CConfig)
  : bool := true.

(** [None]: the remainder is taken by zero, which is undefined. *)
Definition WriteScreen_Header (this : CElasticityOutput) (config : CConfig)
  : option bool :=
  write_header ←
    (if nonlinear_analysis this then Some (GetIntIter config =? 0)
     else
       let divisor := (GetWrt_Con_Freq config * 40) mod ulong_modulus in
       if divisor =? 0 then None
       else Some (GetExtIter config mod divisor =? 0));
  (* For multizone problems, print the header only if requested explicitly *)
  let write_header :=
    if GetMultizone_Problem config
    then write_header && GetWrt_ZoneConv config
    else write_header in
  Some write_header.

Definition WriteScreen_Output (this : CElasticityOutput) (config : CConfig)
  : bool :=
  let write_output := true in
  (* For multizone problems, print the header only if requested explicitly *)
  let write_output :=
    if GetMultizone_Problem config
    then write_output && GetWrt_ZoneConv config
    else write_output in
  write_output.

End WriteGate.

(** ** Record store *)

(** Modelled from the spec: the containers behind [SetHistoryOutputValue]
    and [SetVolumeOutputValue] are members of the base class [COutput],
    which [output_elasticity.cpp] does not define. A record store holds the
    most recently written value of each registered field, addressed by field
    name (history) or by field name and point (volume). [journal] lists the
    keys written, oldest first; it is there to state how often a loader
    writes a field. *)
Record RecordStore (K : Type) `{Countable K} := {
  registered : list string;
  values : gmap K su2double;
  journal : list K
}.
Arguments registered {K _ _} _.
Arguments values {K _ _} _.
Arguments journal {K _ _} _.

(** The store of a catalogue before any field is written. *)
Definition new_record {K} `{Countable K} (catalog : list string) : RecordStore K :=
  {| registered := catalog; values := ∅; journal := [] |}.

(** Modelled from the spec: the write operation of the record store, which
    the base class [COutput] provides. Writing overwrites the current value
    of the field; a field identifier that is absent from the active
    catalogue is a fatal condition, surfaced at once. *)
Definition set_value {K} `{Countable K} (name : string) (key : K) (value : su2double)
  : M (RecordStore K) unit := λ store,
  if bool_decide (name ∈ registered store)
  then modify (λ store, {| registered := registered store;
                           values := <[key := value]> (values store);
                           journal := push_back (journal store) key |}) store
  else raise ("Cannot find output field with name " +:+ name) store.

(** Modelled from the spec: [COutput::SetHistoryOutputValue], a member of
    the base class; one value per field and iteration. *)
Definition SetHistoryOutputValue (name : string) (value : su2double)
  : M (RecordStore string) unit :=
  set_value name name value.

(** Modelled from the spec: [COutput::SetVolumeOutputValue], a member of
    the base class; one value per field and point. *)
Definition SetVolumeOutputValue (name : string) (iPoint : Z) (value : su2double)
  : M (RecordStore (string * Z)) unit :=
  set_value name (name, iPoint) value.

(** How many times a key was written. *)
Definition times_written {K} `{EqDecision K} (key : K) (written : list K) : nat :=
  length (filter (λ k, k = key) written).

(** ** Data loaders *)

Section DataLoader.
Context `{OptionStructure}.
(** [log10] of the C library. *)
Variable log10 : su2double → su2double.

Definition LoadHistoryData
    (this : CElasticityOutput) (config : CConfig) (geometry : CGeometry)
    (solver : nat → CSolver) : M (RecordStore string) unit :=
  let fea_solver := solver FEA_SOL in
  SetHistoryOutputValue "TIME_ITER" (su2double_of_Z (curr_TimeIter this));;
  SetHistoryOutputValue "INNER_ITER" (su2double_of_Z (curr_InnerIter this));;
  SetHistoryOutputValue "OUTER_ITER" (su2double_of_Z (curr_OuterIter this));;
  (* Residuals: *)
  (* Linear analysis: RMS of the displacements in the nDim coordinates *)
  (* Nonlinear analysis: UTOL, RTOL and DTOL (defined in the Postprocessing function) *)
  (if linear_analysis this then
     SetHistoryOutputValue "RMS_DISP_X" (log10 (GetRes_RMS fea_solver 0));;
     SetHistoryOutputValue "RMS_DISP_Y" (log10 (GetRes_RMS fea_solver 1));;
     when (nDim this =? 3) (
       SetHistoryOutputValue "RMS_DISP_Z" (log10 (GetRes_RMS fea_solver 2))
     )
   else if nonlinear_analysis this then
     SetHistoryOutputValue "RMS_UTOL" (log10 (GetRes_FEM fea_solver 0));;
     SetHistoryOutputValue "RMS_RTOL" (log10 (GetRes_FEM fea_solver 1));;
     when (nDim this =? 3) (
       SetHistoryOutputValue "RMS_ETOL" (log10 (GetRes_FEM fea_solver 2))
     )
   else mret tt);;
  when (multizone this) (
    SetHistoryOutputValue "BGS_DISP_X" (log10 (GetRes_BGS fea_solver 0));;
    SetHistoryOutputValue "BGS_DISP_Y" (log10 (GetRes_BGS fea_solver 1));;
    when (nDim this =? 3)
      (SetHistoryOutputValue "BGS_DISP_Z" (log10 (GetRes_BGS fea_solver 2)))
  );;
  SetHistoryOutputValue "VMS" (GetTotal_CFEA fea_solver);;
  SetHistoryOutputValue "LOAD_INCREMENT" (GetLoad_Increment fea_solver);;
  SetHistoryOutputValue "LOAD_RAMP" (GetForceCoeff fea_solver).

Definition LoadVolumeData
    (this : CElasticityOutput) (config : CConfig) (geometry : CGeometry)
    (solver : nat → CSolver) (iPoint : Z) : M (RecordStore (string * Z)) unit :=
  let Node_Struc := solver_node (solver FEA_SOL) iPoint in
  let Node_Geo := geometry_node geometry iPoint in
  SetVolumeOutputValue "COORD-X" iPoint (GetCoord Node_Geo 0);;
  SetVolumeOutputValue "COORD-Y" iPoint (GetCoord Node_Geo 1);;
  when (nDim this =? 3)
    (SetVolumeOutputValue "COORD-Z" iPoint (GetCoord Node_Geo 2));;
  SetVolumeOutputValue "DISPLACEMENT-X" iPoint (GetSolution Node_Struc 0);;
  SetVolumeOutputValue "DISPLACEMENT-Y" iPoint (GetSolution Node_Struc 1);;
  when (nDim this =? 3)
    (SetVolumeOutputValue "DISPLACEMENT-Z" iPoint (GetSolution Node_Struc 2));;
  when (dynamic this) (
    SetVolumeOutputValue "VELOCITY-X" iPoint (GetSolution_Vel Node_Struc 0);;
    SetVolumeOutputValue "VELOCITY-Y" iPoint (GetSolution_Vel Node_Struc 1);;
    when (nDim this =? 3)
      (SetVolumeOutputValue "VELOCITY-Z" iPoint (GetSolution_Vel Node_Struc 2));;
    SetVolumeOutputValue "ACCELERATION-X" iPoint (GetSolution_Accel Node_Struc 0);;
    SetVolumeOutputValue "ACCELERATION-Y" iPoint (GetSolution_Accel Node_Struc 1);;
    when (nDim this =? 3)
      (SetVolumeOutputValue "ACCELERATION-Z" iPoint (GetSolution_Accel Node_Struc 2))
  );;
  SetVolumeOutputValue "STRESS-XX" iPoint (GetStress_FEM Node_Struc 0);;
  SetVolumeOutputValue "STRESS-YY" iPoint (GetStress_FEM Node_Struc 1);;
  SetVolumeOutputValue "STRESS-XY" iPoint (GetStress_FEM Node_Struc 2);;
  when (nDim this =? 3) (
    SetVolumeOutputValue "STRESS-ZZ" iPoint (GetStress_FEM Node_Struc 3);;
    SetVolumeOutputValue "STRESS-XZ" iPoint (GetStress_FEM Node_Struc 4);;
    SetVolumeOutputValue "STRESS-YZ" iPoint (GetStress_FEM Node_Struc 5)
  );;
  SetVolumeOutputValue "VON_MISES_STRESS" iPoint (GetVonMises_Stress Node_Struc).

(** One iteration of history reporting: the catalogue is built, a record
    is opened on it and the loader fills the record. [None] if a step
    aborts. *)
Definition history_iteration
    (this : CElasticityOutput) (config : CConfig) (geometry : CGeometry)
    (solver : nat → CSolver) : option (RecordStore string) :=
  catalog ← history_catalog this config;
  exec (LoadHistoryData this config geometry solver) (new_record catalog).

(** The same for the volume record of one point. *)
Definition volume_point
    (this : CElasticityOutput) (config : CConfig) (geometry : CGeometry)
    (solver : nat → CSolver) (iPoint : Z) : option (RecordStore (string * Z)) :=
  catalog ← volume_catalog this config;
  exec (LoadVolumeData this config geometry solver iPoint) (new_record catalog).

End DataLoader.

(** ** Vocabulary of the specification *)

(** The out-of-plane fields of both catalogues. *)
Definition z_axis_fields : list string :=
  ["COORD-Z"; "DISPLACEMENT-Z"; "VELOCITY-Z"; "ACCELERATION-Z";
   "STRESS-ZZ"; "STRESS-XZ"; "STRESS-YZ"; "RMS_DISP_Z"; "BGS_DISP_Z"].

Definition velocity_fields : list string :=
  ["VELOCITY-X"; "VELOCITY-Y"; "VELOCITY-Z"].

Definition acceleration_fields : list string :=
  ["ACCELERATION-X"; "ACCELERATION-Y"; "ACCELERATION-Z"].

(** What [SetHistoryOutputFields] registers, in order. *)
Definition history_fields : list string :=
  ["TIME_ITER"; "OUTER_ITER"; "INNER_ITER"; "PHYS_TIME"; "LINSOL_ITER";
   "RMS_UTOL"; "RMS_RTOL"; "RMS_ETOL"; "RMS_DISP_X"; "RMS_DISP_Y"; "RMS_DISP_Z";
   "BGS_DISP_X"; "BGS_DISP_Y"; "BGS_DISP_Z"; "VMS"; "LOAD_INCREMENT"; "LOAD_RAMP"].

(** What [SetVolumeOutputFields] registers, in order. *)
Definition volume_fields (three_dimensional : bool) : list string :=
  if three_dimensional then
    ["COORD-X"; "COORD-Y"; "COORD-Z";
     "DISPLACEMENT-X"; "DISPLACEMENT-Y"; "DISPLACEMENT-Z";
     "VELOCITY-X"; "VELOCITY-Y"; "VELOCITY-Z";
     "ACCELERATION-X"; "ACCELERATION-Y"; "ACCELERATION-Z";
     "STRESS-XX"; "STRESS-YY"; "STRESS-XY"; "STRESS-ZZ"; "STRESS-XZ"; "STRESS-YZ";
     "VON_MISES_STRESS"]
  else
    ["COORD-X"; "COORD-Y"; "DISPLACEMENT-X"; "DISPLACEMENT-Y";
     "VELOCITY-X"; "VELOCITY-Y"; "ACCELERATION-X"; "ACCELERATION-Y";
     "STRESS-XX"; "STRESS-YY"; "STRESS-XY"; "VON_MISES_STRESS"].

(** The fields [LoadHistoryData] writes, in order. *)
Definition history_writes (this : CElasticityOutput) : list string :=
  (["TIME_ITER"; "INNER_ITER"; "OUTER_ITER"]
   ++ (if linear_analysis this then
         ["RMS_DISP_X"; "RMS_DISP_Y"] ++ (if nDim this =? 3 then ["RMS_DISP_Z"] else [])
       else if nonlinear_analysis this then
         ["RMS_UTOL"; "RMS_RTOL"] ++ (if nDim this =? 3 then ["RMS_ETOL"] else [])
       else [])
   ++ (if multizone this then
         ["BGS_DISP_X"; "BGS_DISP_Y"] ++ (if nDim this =? 3 then ["BGS_DISP_Z"] else [])
       else [])
   ++ ["VMS"; "LOAD_INCREMENT"; "LOAD_RAMP"])%list.

(** The fields [LoadVolumeData] writes for a point, in order. *)
Definition volume_writes (this : CElasticityOutput) : list string :=
  (["COORD-X"; "COORD-Y"] ++ (if nDim this =? 3 then ["COORD-Z"] else [])
   ++ ["DISPLACEMENT-X"; "DISPLACEMENT-Y"]
   ++ (if nDim this =? 3 then ["DISPLACEMENT-Z"] else [])
   ++ (if dynamic this then
         ["VELOCITY-X"; "VELOCITY-Y"] ++ (if nDim this =? 3 then ["VELOCITY-Z"] else [])
         ++ ["ACCELERATION-X"; "ACCELERATION-Y"]
         ++ (if nDim this =? 3 then ["ACCELERATION-Z"] else [])
       else [])
   ++ ["STRESS-XX"; "STRESS-YY"; "STRESS-XY"]
   ++ (if nDim this =? 3 then ["STRESS-ZZ"; "STRESS-XZ"; "STRESS-YZ"] else [])
   ++ ["VON_MISES_STRESS"])%list.

(** The solver accessor behind each residual field of the history record. *)
Definition residual_source (fea_solver : CSolver) (name : string) : option su2double :=
  if decide (name = "RMS_DISP_X") then Some (GetRes_RMS fea_solver 0)
  else if decide (name = "RMS_DISP_Y") then Some (GetRes_RMS fea_solver 1)
  else if decide (name = "RMS_DISP_Z") then Some (GetRes_RMS fea_solver 2)
  else if decide (name = "RMS_UTOL") then Some (GetRes_FEM fea_solver 0)
  else if decide (name = "RMS_RTOL") then Some (GetRes_FEM fea_solver 1)
  else if decide (name = "RMS_ETOL") then Some (GetRes_FEM fea_solver 2)
  else if decide (name = "BGS_DISP_X") then Some (GetRes_BGS fea_solver 0)
  else if decide (name = "BGS_DISP_Y") then Some (GetRes_BGS fea_solver 1)
  else if decide (name = "BGS_DISP_Z") then Some (GetRes_BGS fea_solver 2)
  else None.

Section Statements.
Context `{OptionStructure}.
Variable log10 : su2double → su2double.

(** The residual fields of the history catalogue are split by the
    deformation regime. *)
Definition history_catalog_split_by_mode
    (base : COutput) (config : CConfig) (geometry : CGeometry) (val_iZone : Z) : Prop :=
  ∃ ids,
    history_catalog (CElasticityOutput_ctor base config geometry val_iZone) config = Some ids ∧
    (GetGeometricConditions config = LARGE_DEFORMATIONS →
       "RMS_UTOL" ∈ ids ∧ "RMS_RTOL" ∈ ids ∧
       ("RMS_ETOL" ∈ ids ↔ GetnDim geometry = 3) ∧
       ("RMS_DISP_X" ∉ ids) ∧ ("RMS_DISP_Y" ∉ ids) ∧ ("RMS_DISP_Z" ∉ ids)) ∧
    (GetGeometricConditions config = SMALL_DEFORMATIONS →
       "RMS_DISP_X" ∈ ids ∧ "RMS_DISP_Y" ∈ ids ∧
       ("RMS_DISP_Z" ∈ ids ↔ GetnDim geometry = 3) ∧
       ("RMS_UTOL" ∉ ids) ∧ ("RMS_RTOL" ∉ ids) ∧ ("RMS_ETOL" ∉ ids)).

(** In two dimensions neither catalogue has an out-of-plane field. *)
Definition no_z_field_in_catalogs
    (base : COutput) (config : CConfig) (geometry : CGeometry) (val_iZone : Z) : Prop :=
  GetnDim geometry = 2 →
  ∃ history volume,
    history_catalog (CElasticityOutput_ctor base config geometry val_iZone) config = Some history ∧
    volume_catalog (CElasticityOutput_ctor base config geometry val_iZone) config = Some volume ∧
    ∀ f, f ∈ z_axis_fields → (f ∉ history) ∧ (f ∉ volume).

(** A static analysis: the constructor leaves [dynamic] false. *)
Definition static_analysis (config : CConfig) : Prop :=
  GetTime_Domain config = false ∧ GetDynamic_Analysis config ≠ DYNAMIC.

(** A static analysis has no velocity and no acceleration field in its
    volume catalogue. *)
Definition static_catalog_without_rates
    (base : COutput) (config : CConfig) (geometry : CGeometry) (val_iZone : Z) : Prop :=
  static_analysis config →
  ∃ volume,
    volume_catalog (CElasticityOutput_ctor base config geometry val_iZone) config = Some volume ∧
    ∀ f, f ∈ (velocity_fields ++ acceleration_fields)%list → f ∉ volume.

(** A deformation regime that is neither of the two known ones produces
    no catalogue. *)
Definition unrecognised_geometry_rejected
    (base : COutput) (config : CConfig) (geometry : CGeometry) (val_iZone : Z) : Prop :=
  GetGeometricConditions config ≠ SMALL_DEFORMATIONS →
  GetGeometricConditions config ≠ LARGE_DEFORMATIONS →
  history_catalog (CElasticityOutput_ctor base config geometry val_iZone) config = None ∧
  volume_catalog (CElasticityOutput_ctor base config geometry val_iZone) config = None.

(** Both row decisions are true, and in a multizone run each is the
    opt-in flag. *)
Definition row_decisions_follow_opt_in
    (this : CElasticityOutput) (config : CConfig) : Prop :=
  WriteScreen_Output this config
    = (if GetMultizone_Problem config then GetWrt_ZoneConv config else true) ∧
  WriteHistoryFile_Output this config
    = (if GetMultizone_Problem config then GetWrt_ZoneConv config else true).

(** Every field of the history catalogue is written exactly once by the
    loader. *)
Definition every_registered_field_written_once
    (this : CElasticityOutput) (config : CConfig) (geometry : CGeometry)
    (solver : nat → CSolver) : Prop :=
  ∃ ids record,
    history_catalog this config = Some ids ∧
    history_iteration log10 this config geometry solver = Some record ∧
    ∀ f, f ∈ ids → times_written f (journal record) = 1%nat.

(** The header decision is given by the inner iteration counter in a
    nonlinear analysis and by the external iteration counter modulo 40
    times the write frequency otherwise, and-ed with the opt-in flag in a
    multizone run. *)
Definition header_decision_as_stated
    (ulong_modulus : Z) (this : CElasticityOutput) (config : CConfig) : Prop :=
  ∃ write_header,
    WriteScreen_Header ulong_modulus this config = Some write_header ∧
    (write_header = true ↔
       (if nonlinear_analysis this
        then GetIntIter config = 0
        else GetExtIter config mod (GetWrt_Con_Freq config * 40) = 0) ∧
       (GetMultizone_Problem config = true → GetWrt_ZoneConv config = true)).


End Statements.

(** ** The loaders as sequences of assignments *)

(** The assignments [LoadHistoryData] makes, in order. *)
Definition history_assignments
    (log10 : su2double → su2double) (this : CElasticityOutput) (fea_solver : CSolver)
  : list (string * su2double) :=
  ([("TIME_ITER", su2double_of_Z (curr_TimeIter this));
    ("INNER_ITER", su2double_of_Z (curr_InnerIter this));
    ("OUTER_ITER", su2double_of_Z (curr_OuterIter this))]
   ++ (if linear_analysis this then
         [("RMS_DISP_X", log10 (GetRes_RMS fea_solver 0));
          ("RMS_DISP_Y", log10 (GetRes_RMS fea_solver 1))]
         ++ (if nDim this =? 3
             then [("RMS_DISP_Z", log10 (GetRes_RMS fea_solver 2))] else [])
       else if nonlinear_analysis this then
         [("RMS_UTOL", log10 (GetRes_FEM fea_solver 0));
          ("RMS_RTOL", log10 (GetRes_FEM fea_solver 1))]
         ++ (if nDim this =? 3
             then [("RMS_ETOL", log10 (GetRes_FEM fea_solver 2))] else [])
       else [])
   ++ (if multizone this then
         [("BGS_DISP_X", log10 (GetRes_BGS fea_solver 0));
          ("BGS_DISP_Y", log10 (GetRes_BGS fea_solver 1))]
         ++ (if nDim this =? 3
             then [("BGS_DISP_Z", log10 (GetRes_BGS fea_solver 2))] else [])
       else [])
   ++ [("VMS", GetTotal_CFEA fea_solver);
       ("LOAD_INCREMENT", GetLoad_Increment fea_solver);
       ("LOAD_RAMP", GetForceCoeff fea_solver)])%list.

(** The assignments [LoadVolumeData] makes for a point, in order. *)
Definition volume_assignments
    (this : CElasticityOutput) (Node_Struc : CVariable) (Node_Geo : CPoint)
  : list (string * su2double) :=
  ([("COORD-X", GetCoord Node_Geo 0); ("COORD-Y", GetCoord Node_Geo 1)]
   ++ (if nDim this =? 3 then [("COORD-Z", GetCoord Node_Geo 2)] else [])
   ++ [("DISPLACEMENT-X", GetSolution Node_Struc 0);
       ("DISPLACEMENT-Y", GetSolution Node_Struc 1)]
   ++ (if nDim this =? 3 then [("DISPLACEMENT-Z", GetSolution Node_Struc 2)] else [])
   ++ (if dynamic this then
         [("VELOCITY-X", GetSolution_Vel Node_Struc 0);
          ("VELOCITY-Y", GetSolution_Vel Node_Struc 1)]
         ++ (if nDim this =? 3 then [("VELOCITY-Z", GetSolution_Vel Node_Struc 2)] else [])
         ++ [("ACCELERATION-X", GetSolution_Accel Node_Struc 0);
             ("ACCELERATION-Y", GetSolution_Accel Node_Struc 1)]
         ++ (if nDim this =? 3
             then [("ACCELERATION-Z", GetSolution_Accel Node_Struc 2)] else [])
       else [])
   ++ [("STRESS-XX", GetStress_FEM Node_Struc 0);
       ("STRESS-YY", GetStress_FEM Node_Struc 1);
       ("STRESS-XY", GetStress_FEM Node_Struc 2)]
   ++ (if nDim this =? 3
       then [("STRESS-ZZ", GetStress_FEM Node_Struc 3);
             ("STRESS-XZ", GetStress_FEM Node_Struc 4);
             ("STRESS-YZ", GetStress_FEM Node_Struc 5)]
       else [])
   ++ [("VON_MISES_STRESS", GetVonMises_Stress Node_Struc)])%list.

(** A record store after a sequence of writes, oldest first. *)
Definition assign {K} `{Countable K}
    (writes : list (K * su2double)) (store : RecordStore K) : RecordStore K :=
  {| registered := registered store;
     values := foldl (λ m kv, <[kv.1 := kv.2]> m) (values store) writes;
     journal := foldl push_back (journal store) writes.*1 |}.

(** [m] is the sequence of writes [writes], to fields named [names], on
    every record on which these fields are registered. *)
Definition runs {K} `{Countable K}
    (m : M (RecordStore K) unit) (names : list string) (writes : list (K * su2double))
  : Prop :=
  ∀ store, (∀ f, f ∈ names → f ∈ registered store) →
           m store = Ok (tt, assign writes store).

(** The key of a volume field at a point. *)
Definition at_point (iPoint : Z) (kv : string * su2double) : (string * Z) * su2double :=
  ((kv.1, iPoint), kv.2).

(** ** Sample inputs *)

(** A base object with no requested fields and no convergence field. *)
Definition fresh_output (multizone : bool) : COutput :=
  {| multizone := multizone;
     RequestedHistoryFields := []; nRequestedHistoryFields := 0;
     RequestedScreenFields := []; nRequestedScreenFields := 0;
     RequestedVolumeFields := []; nRequestedVolumeFields := 0;
     MultiZoneHeaderString := ""; VolumeFilename := ""; SurfaceFilename := "";
     RestartFilename := ""; Conv_Field := "";
     curr_TimeIter := 0; curr_InnerIter := 0; curr_OuterIter := 0 |}.

Definition sample_config
    (geometric_conditions : Z) (time_domain multizone zone_conv : bool)
    (int_iter ext_iter wrt_con_freq : Z) : CConfig :=
  {| GetGeometricConditions := geometric_conditions;
     GetTime_Domain := time_domain;
     GetDynamic_Analysis := 0;
     GetiZone := 0;
     GetVolume_FileName := "flow";
     GetSurfCoeff_FileName := "surface_flow";
     GetRestart_FileName := "restart_flow.dat";
     GetIntIter := int_iter;
     GetExtIter := ext_iter;
     GetWrt_Con_Freq := wrt_con_freq;
     GetMultizone_Problem := multizone;
     GetWrt_ZoneConv := zone_conv |}.

Definition sample_geometry (dim : Z) : CGeometry :=
  {| GetnDim := dim;
     geometry_node := λ _, {| GetCoord := λ _, PrimFloat.one |} |}.

(** A solver all of whose residuals have the given value. *)
Definition sample_solver (residual : su2double) : nat → CSolver := λ _,
  {| GetRes_RMS := λ _, residual;
     GetRes_FEM := λ _, residual;
     GetRes_BGS := λ _, residual;
     GetTotal_CFEA := PrimFloat.two;
     GetLoad_Increment := PrimFloat.one;
     GetForceCoeff := PrimFloat.one;
     solver_node := λ _,
       {| GetSolution := λ _, PrimFloat.one;
          GetSolution_Vel := λ _, PrimFloat.one;
          GetSolution_Accel := λ _, PrimFloat.one;
          GetStress_FEM := λ _, PrimFloat.one;
          GetVonMises_Stress := PrimFloat.two |} |}.

(** An object as the constructor builds it from the samples. *)
Definition sample_object (geometric_conditions dim : Z) (time_domain multizone : bool)
  : CElasticityOutput :=
  @CElasticityOutput_ctor su2_option_structure
    (fresh_output multizone)
    (sample_config geometric_conditions time_domain multizone false 0 0 1)
    (sample_geometry dim) 0.

(** A history record left over from an earlier iteration. *)
Definition used_history_record : RecordStore string :=
  {| registered := history_fields;
     values := <["PHYS_TIME" := PrimFloat.one]> (<["VMS" := PrimFloat.zero]> ∅);
     journal := ["VMS"; "PHYS_TIME"] |}.

(** A two-dimensional volume record in which point 3 has a coordinate. *)
Definition used_volume_record : RecordStore (string * Z) :=
  {| registered := volume_fields false;
     values := <[("COORD-X", 3) := PrimFloat.two]> ∅;
     journal := [("COORD-X", 3)] |}.

(** A stand-in for the library's [log10] that has its values at zero and
    at one. *)
Definition log10_sample (x : su2double) : su2double :=
  if PrimFloat.is_zero x then PrimFloat.neg_infinity
  else if PrimFloat.eqb x PrimFloat.one then PrimFloat.zero
  else PrimFloat.nan.

(** * Properties *)

#[local] Set Warnings "-clear-no-such-hyp".

(** A goal about every member of a list literal becomes a [Forall]. *)
Ltac each_member :=
  lazymatch goal with
  | |- ∀ x, x ∈ ?l → @?P x => apply (proj1 (Forall_forall P l))
  end.

(** Case analysis on everything a builder or loader branches on. *)
Ltac branches this :=
  destruct this as [[mz ? ? ? ? ? ? ? ? ? ? ? ? ? ?] lin nonlin dyn dim nvar];
  cbn [output multizone linear_analysis nonlinear_analysis dynamic nDim
       curr_TimeIter curr_InnerIter curr_OuterIter] in *;
  destruct lin, nonlin, dyn, mz, (dim =? 3) eqn:?.

(** ** The constructor *)

Section ConstructorFacts.
Context `{OptionStructure}.
Implicit Types (base : COutput) (config : CConfig) (geometry : CGeometry).

Lemma ctor_nDim base config geometry val_iZone :
  nDim (CElasticityOutput_ctor base config geometry val_iZone) = GetnDim geometry.
Proof. reflexivity. Qed.

Lemma ctor_multizone base config geometry val_iZone :
  multizone (CElasticityOutput_ctor base config geometry val_iZone) = multizone base.
Proof. reflexivity. Qed.

Lemma ctor_small base config geometry val_iZone :
  GetGeometricConditions config = SMALL_DEFORMATIONS →
  linear_analysis (CElasticityOutput_ctor base config geometry val_iZone) = true ∧
  nonlinear_analysis (CElasticityOutput_ctor base config geometry val_iZone) = false.
Proof.
  intros Hmode. cbn. rewrite Hmode, Z.eqb_refl. split; [done|].
  apply Z.eqb_neq, deformations_distinct.
Qed.

Lemma ctor_large base config geometry val_iZone :
  GetGeometricConditions config = LARGE_DEFORMATIONS →
  linear_analysis (CElasticityOutput_ctor base config geometry val_iZone) = false ∧
  nonlinear_analysis (CElasticityOutput_ctor base config geometry val_iZone) = true.
Proof.
  intros Hmode. cbn. rewrite Hmode, Z.eqb_refl. split; [|done].
  apply Z.eqb_neq. intros Heq. by apply deformations_distinct.
Qed.

Lemma ctor_neither base config geometry val_iZone :
  GetGeometricConditions config ≠ SMALL_DEFORMATIONS →
  GetGeometricConditions config ≠ LARGE_DEFORMATIONS →
  linear_analysis (CElasticityOutput_ctor base config geometry val_iZone) = false ∧
  nonlinear_analysis (CElasticityOutput_ctor base config geometry val_iZone) = false.
Proof. intros Hs Hl. cbn. by split; apply Z.eqb_neq. Qed.

Lemma ctor_static base config geometry val_iZone :
  static_analysis config →
  dynamic (CElasticityOutput_ctor base config geometry val_iZone) = false.
Proof.
  intros [Htime Hdyn]. cbn. rewrite Htime. cbn. by apply Z.eqb_neq.
Qed.

End ConstructorFacts.

(** ** The catalogues in closed form *)

Lemma history_catalog_eq this config :
  history_catalog this config = Some history_fields.
Proof. reflexivity. Qed.

Lemma volume_catalog_eq this config :
  volume_catalog this config = Some (volume_fields (nDim this =? 3)).
Proof.
  unfold volume_catalog, SetVolumeOutputFields.
  destruct (nDim this =? 3); reflexivity.
Qed.

(** The builders are deterministic and do not look at the configuration
    object they are handed. *)
Lemma catalogs_ignore_config this config config' :
  history_catalog this config = history_catalog this config' ∧
  volume_catalog this config = volume_catalog this config'.
Proof. by rewrite !history_catalog_eq, !volume_catalog_eq. Qed.

Lemma z_axis_not_in_flat_volume f :
  f ∈ z_axis_fields → f ∉ volume_fields false.
Proof. revert f. apply Forall_forall. compute_done. Qed.

Lemma z_axis_in_history f :
  f ∈ z_axis_fields → f ∈ history_fields → f = "RMS_DISP_Z" ∨ f = "BGS_DISP_Z".
Proof.
  revert f.
  apply (Forall_forall (λ f, f ∈ history_fields → f = "RMS_DISP_Z" ∨ f = "BGS_DISP_Z")).
  compute_done.
Qed.

(** ** Write gate *)

Lemma WriteScreen_Output_eq this config :
  WriteScreen_Output this config
  = (if GetMultizone_Problem config then GetWrt_ZoneConv config else true).
Proof. unfold WriteScreen_Output. by destruct (GetMultizone_Problem config). Qed.

(** The opt-in flag is not looked at outside multizone runs. *)
Lemma gates_ignore_opt_in_single_zone ulong_modulus this config config' :
  GetMultizone_Problem config = false →
  GetMultizone_Problem config' = false →
  GetIntIter config = GetIntIter config' →
  GetExtIter config = GetExtIter config' →
  GetWrt_Con_Freq config = GetWrt_Con_Freq config' →
  WriteScreen_Header ulong_modulus this config = WriteScreen_Header ulong_modulus this config' ∧
  WriteScreen_Output this config = WriteScreen_Output this config'.
Proof.
  intros Hm Hm' Hint Hext Hfreq.
  unfold WriteScreen_Header, WriteScreen_Output.
  by rewrite Hm, Hm', Hint, Hext, Hfreq.
Qed.

(** ** The loaders in closed form *)

Section LoaderFacts.
Context `{OptionStructure}.
Variable log10 : su2double → su2double.
Implicit Types (this : CElasticityOutput) (config : CConfig)
  (geometry : CGeometry) (solver : nat → CSolver).

Lemma history_iteration_journal this config geometry solver :
  journal <$> history_iteration log10 this config geometry solver
  = Some (history_writes this).
Proof.
  unfold history_iteration. rewrite history_catalog_eq.
  unfold history_writes, LoadHistoryData.
  generalize (solver FEA_SOL), (su2double_of_Z (curr_TimeIter this)),
    (su2double_of_Z (curr_InnerIter this)), (su2double_of_Z (curr_OuterIter this)).
  intros fea_solver time_iter inner_iter outer_iter.
  branches this; vm_compute; reflexivity.
Qed.

Lemma volume_point_journal this config geometry solver iPoint :
  journal <$> volume_point this config geometry solver iPoint
  = Some ((λ f, (f, iPoint)) <$> volume_writes this).
Proof.
  unfold volume_point. rewrite volume_catalog_eq.
  unfold volume_writes, volume_fields, LoadVolumeData.
  generalize (solver_node (solver FEA_SOL) iPoint), (geometry_node geometry iPoint).
  intros Node_Struc Node_Geo.
  branches this; vm_compute; reflexivity.
Qed.

Lemma history_iteration_registered this config geometry solver :
  registered <$> history_iteration log10 this config geometry solver
  = Some history_fields.
Proof.
  unfold history_iteration. rewrite history_catalog_eq.
  unfold LoadHistoryData.
  generalize (solver FEA_SOL), (su2double_of_Z (curr_TimeIter this)),
    (su2double_of_Z (curr_InnerIter this)), (su2double_of_Z (curr_OuterIter this)).
  intros fea_solver time_iter inner_iter outer_iter.
  branches this; vm_compute; reflexivity.
Qed.

(** The history loader completes, and this is what it has written. *)
Lemma history_iteration_Some this config geometry solver :
  ∃ record,
    history_iteration log10 this config geometry solver = Some record ∧
    journal record = history_writes this.
Proof.
  pose proof (history_iteration_journal this config geometry solver) as Hj.
  apply fmap_Some in Hj as (record & ? & ?). eauto.
Qed.

(** The volume loader completes, and this is what it has written. *)
Lemma volume_point_Some this config geometry solver iPoint :
  ∃ record,
    volume_point this config geometry solver iPoint = Some record ∧
    ∀ f, (f, iPoint) ∈ journal record ↔ f ∈ volume_writes this.
Proof.
  pose proof (volume_point_journal this config geometry solver iPoint) as Hj.
  apply fmap_Some in Hj as (record & Hrecord & Hwrites).
  exists record. split; [done|]. intros f. rewrite <- Hwrites.
  rewrite list_elem_of_fmap. naive_solver.
Qed.

(** Which fields the history loader writes. *)
Lemma history_writes_spec this f :
  f ∈ history_writes this ↔
    (f = "TIME_ITER" ∨ f = "INNER_ITER" ∨ f = "OUTER_ITER" ∨
     f = "VMS" ∨ f = "LOAD_INCREMENT" ∨ f = "LOAD_RAMP") ∨
    (linear_analysis this = true ∧
       (f = "RMS_DISP_X" ∨ f = "RMS_DISP_Y" ∨ f = "RMS_DISP_Z" ∧ nDim this = 3)) ∨
    (linear_analysis this = false ∧ nonlinear_analysis this = true ∧
       (f = "RMS_UTOL" ∨ f = "RMS_RTOL" ∨ f = "RMS_ETOL" ∧ nDim this = 3)) ∨
    (multizone this = true ∧
       (f = "BGS_DISP_X" ∨ f = "BGS_DISP_Y" ∨ f = "BGS_DISP_Z" ∧ nDim this = 3)).
Proof.
  unfold history_writes.
  destruct (Z.eqb_spec (nDim this) 3) as [Hdim|Hdim],
    (linear_analysis this), (nonlinear_analysis this), (multizone this);
    rewrite ?elem_of_app, ?elem_of_cons, ?elem_of_nil; naive_solver.
Qed.

(** Which fields the volume loader writes. *)
Lemma volume_writes_spec this f :
  f ∈ volume_writes this ↔
    (f = "COORD-X" ∨ f = "COORD-Y" ∨ f = "DISPLACEMENT-X" ∨ f = "DISPLACEMENT-Y" ∨
     f = "STRESS-XX" ∨ f = "STRESS-YY" ∨ f = "STRESS-XY" ∨ f = "VON_MISES_STRESS") ∨
    (nDim this = 3 ∧
       (f = "COORD-Z" ∨ f = "DISPLACEMENT-Z" ∨
        f = "STRESS-ZZ" ∨ f = "STRESS-XZ" ∨ f = "STRESS-YZ")) ∨
    (dynamic this = true ∧
       (f = "VELOCITY-X" ∨ f = "VELOCITY-Y" ∨ f = "ACCELERATION-X" ∨ f = "ACCELERATION-Y")) ∨
    (dynamic this = true ∧ nDim this = 3 ∧ (f = "VELOCITY-Z" ∨ f = "ACCELERATION-Z")).
Proof.
  unfold volume_writes.
  destruct (Z.eqb_spec (nDim this) 3) as [Hdim|Hdim], (dynamic this);
    rewrite ?elem_of_app, ?elem_of_cons, ?elem_of_nil; naive_solver.
Qed.

(** What the history record holds for a residual field that was written. *)
Lemma history_iteration_values this config geometry solver f r :
  f ∈ history_writes this →
  residual_source (solver FEA_SOL) f = Some r →
  history_iteration log10 this config geometry solver
    ≫= (λ record, values record !! f) = Some (log10 r).
Proof.
  unfold history_iteration. rewrite history_catalog_eq.
  unfold history_writes, LoadHistoryData.
  generalize (solver FEA_SOL), (su2double_of_Z (curr_TimeIter this)),
    (su2double_of_Z (curr_InnerIter this)), (su2double_of_Z (curr_OuterIter this)).
  intros fea_solver time_iter inner_iter outer_iter Hf. revert r. revert f Hf.
  branches this; cbn [app]; each_member; repeat constructor;
    intros r Hr; vm_compute in Hr;
    first [ discriminate Hr | injection Hr as <-; vm_compute; reflexivity ].
Qed.

End LoaderFacts.

(** ** The history catalogue and the deformation regime *)

(** C1, as stated, fails: with [LARGE_DEFORMATIONS] in two dimensions the
    history catalogue still contains [RMS_DISP_X] (and [RMS_ETOL]). *)
Lemma history_catalog_split_by_mode_fails :
  ¬ @history_catalog_split_by_mode su2_option_structure
      (fresh_output false) (sample_config 1 false false false 0 0 1) (sample_geometry 2) 0.
Proof.
  intros (ids & Hids & Hlarge & _).
  rewrite history_catalog_eq in Hids. injection Hids as <-.
  destruct Hlarge as (_ & _ & _ & Hx & _); [reflexivity|].
  apply Hx. compute_done.
Qed.

Section HistoryCatalog.
Context `{OptionStructure}.
Variable log10 : su2double → su2double.

(** C1, amended: for every configuration the history catalogue holds all
    six of [RMS_UTOL], [RMS_RTOL], [RMS_ETOL], [RMS_DISP_X], [RMS_DISP_Y],
    [RMS_DISP_Z], whatever the deformation regime and the dimension. The
    split is made by [LoadHistoryData]: under [LARGE_DEFORMATIONS] it
    writes [RMS_UTOL], [RMS_RTOL] and, iff the dimension is 3, [RMS_ETOL],
    and none of [RMS_DISP_X/Y/Z]; under [SMALL_DEFORMATIONS] it writes
    [RMS_DISP_X], [RMS_DISP_Y] and, iff the dimension is 3, [RMS_DISP_Z],
    and none of [RMS_UTOL], [RMS_RTOL], [RMS_ETOL]. *)
Theorem history_catalog_registers_both_families
    (base : COutput) (config : CConfig) (geometry : CGeometry) (val_iZone : Z)
    (solver : nat → CSolver) :
  ∃ ids record,
    history_catalog (CElasticityOutput_ctor base config geometry val_iZone) config = Some ids ∧
    history_iteration log10 (CElasticityOutput_ctor base config geometry val_iZone)
      config geometry solver = Some record ∧
    (∀ f, f ∈ ["RMS_UTOL"; "RMS_RTOL"; "RMS_ETOL";
               "RMS_DISP_X"; "RMS_DISP_Y"; "RMS_DISP_Z"] → f ∈ ids) ∧
    (GetGeometricConditions config = LARGE_DEFORMATIONS →
       "RMS_UTOL" ∈ journal record ∧ "RMS_RTOL" ∈ journal record ∧
       ("RMS_ETOL" ∈ journal record ↔ GetnDim geometry = 3) ∧
       ("RMS_DISP_X" ∉ journal record) ∧ ("RMS_DISP_Y" ∉ journal record) ∧
       ("RMS_DISP_Z" ∉ journal record)) ∧
    (GetGeometricConditions config = SMALL_DEFORMATIONS →
       "RMS_DISP_X" ∈ journal record ∧ "RMS_DISP_Y" ∈ journal record ∧
       ("RMS_DISP_Z" ∈ journal record ↔ GetnDim geometry = 3) ∧
       ("RMS_UTOL" ∉ journal record) ∧ ("RMS_RTOL" ∉ journal record) ∧
       ("RMS_ETOL" ∉ journal record)).
Proof.
  destruct (history_iteration_Some log10
              (CElasticityOutput_ctor base config geometry val_iZone)
              config geometry solver) as (record & Hrecord & Hjournal).
  exists history_fields, record.
  split; [apply history_catalog_eq|]. split; [done|].
  split; [each_member; compute_done|].
  rewrite Hjournal, !history_writes_spec, ctor_nDim.
  split; intros Hmode.
  - destruct (ctor_large base config geometry val_iZone Hmode) as [-> ->].
    naive_solver.
  - destruct (ctor_small base config geometry val_iZone Hmode) as [-> ->].
    naive_solver.
Qed.

End HistoryCatalog.

(** A nonlinear analysis in three dimensions: [RMS_DISP_X] is registered
    and not written, [RMS_ETOL] is written. *)
Lemma history_catalog_registers_both_families_witness :
  ∃ ids record,
    history_catalog (sample_object 1 3 false false)
      (sample_config 1 false false false 0 0 1) = Some ids ∧
    @history_iteration su2_option_structure log10_sample (sample_object 1 3 false false)
      (sample_config 1 false false false 0 0 1) (sample_geometry 3)
      (sample_solver PrimFloat.one) = Some record ∧
    "RMS_DISP_X" ∈ ids ∧ "RMS_ETOL" ∈ journal record ∧ "RMS_DISP_X" ∉ journal record.
Proof.
  destruct (@history_catalog_registers_both_families su2_option_structure log10_sample
              (fresh_output false) (sample_config 1 false false false 0 0 1)
              (sample_geometry 3) 0 (sample_solver PrimFloat.one))
    as (ids & record & Hids & Hrecord & Hall & Hlarge & _).
  exists ids, record. split; [exact Hids|]. split; [exact Hrecord|].
  split; [apply Hall; compute_done|].
  destruct Hlarge as (_ & _ & Hetol & Hx & _); [reflexivity|].
  split; [apply Hetol; reflexivity | exact Hx].
Defined.

(** ** The catalogues in two dimensions *)

(** C2, as stated, fails: in two dimensions the history catalogue contains
    [RMS_DISP_Z]. *)
Lemma no_z_field_in_catalogs_fails :
  ¬ @no_z_field_in_catalogs su2_option_structure
      (fresh_output false) (sample_config 0 false false false 0 0 1) (sample_geometry 2) 0.
Proof.
  intros Hclaim.
  destruct Hclaim as (history & volume & Hhistory & _ & Hnone); [reflexivity|].
  rewrite history_catalog_eq in Hhistory. injection Hhistory as <-.
  destruct (Hnone "RMS_DISP_Z") as [Hhistory _]; [compute_done|].
  apply Hhistory. compute_done.
Qed.

Section FlatCatalogs.
Context `{OptionStructure}.

(** C2, amended: for every configuration of dimension 2, no out-of-plane
    field (Z coordinate, displacement, velocity, acceleration, stress
    ZZ/XZ/YZ) appears in the volume catalogue; the history catalogue,
    which does not depend on the dimension, contains the out-of-plane
    residual fields [RMS_DISP_Z] and [BGS_DISP_Z], and no other
    out-of-plane field. *)
Theorem two_dimensional_catalogs
    (base : COutput) (config : CConfig) (geometry : CGeometry) (val_iZone : Z) :
  GetnDim geometry = 2 →
  ∃ history volume,
    history_catalog (CElasticityOutput_ctor base config geometry val_iZone) config
      = Some history ∧
    volume_catalog (CElasticityOutput_ctor base config geometry val_iZone) config
      = Some volume ∧
    (∀ f, f ∈ z_axis_fields → f ∉ volume) ∧
    "RMS_DISP_Z" ∈ history ∧ "BGS_DISP_Z" ∈ history ∧
    (∀ f, f ∈ z_axis_fields → f ∈ history → f = "RMS_DISP_Z" ∨ f = "BGS_DISP_Z").
Proof.
  intros Hdim. exists history_fields, (volume_fields false).
  split; [apply history_catalog_eq|].
  split; [by rewrite volume_catalog_eq, ctor_nDim, Hdim|].
  split; [apply z_axis_not_in_flat_volume|].
  split; [compute_done|]. split; [compute_done|].
  apply z_axis_in_history.
Qed.

End FlatCatalogs.

(** A linear analysis in two dimensions. *)
Lemma two_dimensional_catalogs_witness :
  GetnDim (sample_geometry 2) = 2 ∧
  ∃ history volume,
    history_catalog (sample_object 0 2 false false)
      (sample_config 0 false false false 0 0 1) = Some history ∧
    volume_catalog (sample_object 0 2 false false)
      (sample_config 0 false false false 0 0 1) = Some volume ∧
    ("STRESS-ZZ" ∉ volume) ∧ "RMS_DISP_Z" ∈ history.
Proof.
  split; [reflexivity|].
  destruct (@two_dimensional_catalogs su2_option_structure
              (fresh_output false) (sample_config 0 false false false 0 0 1)
              (sample_geometry 2) 0 eq_refl)
    as (history & volume & Hhistory & Hvolume & Hnone & Hz & _).
  exists history, volume. split; [exact Hhistory|]. split; [exact Hvolume|].
  split; [apply Hnone; compute_done | exact Hz].
Defined.

(** ** The volume catalogue of a static analysis *)

(** C3, as stated, fails: a static analysis has [VELOCITY-X] in its volume
    catalogue. *)
Lemma static_catalog_without_rates_fails :
  ¬ @static_catalog_without_rates su2_option_structure
      (fresh_output false) (sample_config 0 false false false 0 0 1) (sample_geometry 2) 0.
Proof.
  intros Hclaim.
  destruct Hclaim as (volume & Hvolume & Hnone); [by split|].
  rewrite volume_catalog_eq in Hvolume. injection Hvolume as <-.
  apply (Hnone "VELOCITY-X"); compute_done.
Qed.

Section StaticCatalog.
Context `{OptionStructure}.

(** C3, amended: the volume catalogue does not depend on the time mode.
    For every configuration, a static one included, it contains
    [VELOCITY-X], [VELOCITY-Y], [ACCELERATION-X] and [ACCELERATION-Y], and
    [VELOCITY-Z] and [ACCELERATION-Z] iff the dimension is 3; every
    configuration of the same dimension, whatever its time mode, has the
    same catalogue. In a static analysis it is [LoadVolumeData] that leaves
    them alone: it writes no velocity and no acceleration field. *)
Theorem static_volume_catalog_keeps_rates
    (base : COutput) (config : CConfig) (geometry : CGeometry) (val_iZone : Z)
    (solver : nat → CSolver) (iPoint : Z) :
  ∃ volume record,
    volume_catalog (CElasticityOutput_ctor base config geometry val_iZone) config
      = Some volume ∧
    volume_point (CElasticityOutput_ctor base config geometry val_iZone)
      config geometry solver iPoint = Some record ∧
    "VELOCITY-X" ∈ volume ∧ "VELOCITY-Y" ∈ volume ∧
    "ACCELERATION-X" ∈ volume ∧ "ACCELERATION-Y" ∈ volume ∧
    ("VELOCITY-Z" ∈ volume ↔ GetnDim geometry = 3) ∧
    ("ACCELERATION-Z" ∈ volume ↔ GetnDim geometry = 3) ∧
    (∀ (base' : COutput) (config' : CConfig) (geometry' : CGeometry) (val_iZone' : Z),
       GetnDim geometry' = GetnDim geometry →
       volume_catalog (CElasticityOutput_ctor base' config' geometry' val_iZone') config'
       = Some volume) ∧
    (static_analysis config →
     ∀ f, f ∈ (velocity_fields ++ acceleration_fields)%list →
          (f, iPoint) ∉ journal record).
Proof.
  destruct (volume_point_Some (CElasticityOutput_ctor base config geometry val_iZone)
              config geometry solver iPoint) as (record & Hrecord & Hjournal).
  exists (volume_fields (GetnDim geometry =? 3)), record.
  split; [by rewrite volume_catalog_eq, ctor_nDim|]. split; [done|].
  assert (static_analysis config →
          ∀ f, f ∈ (velocity_fields ++ acceleration_fields)%list →
               (f, iPoint) ∉ journal record) as Hrates.
  { intros Hstatic f Hf.
    rewrite Hjournal, volume_writes_spec, (ctor_static _ _ _ _ Hstatic).
    revert f Hf. each_member. repeat constructor; naive_solver. }
  assert (∀ (base' : COutput) (config' : CConfig) (geometry' : CGeometry)
            (val_iZone' : Z),
            GetnDim geometry' = GetnDim geometry →
            volume_catalog (CElasticityOutput_ctor base' config' geometry' val_iZone')
              config'
            = Some (volume_fields (GetnDim geometry =? 3))) as Hsame.
  { intros base' config' geometry' val_iZone' Hdim.
    by rewrite volume_catalog_eq, ctor_nDim, Hdim. }
  destruct (Z.eqb_spec (GetnDim geometry) 3) as [Hdim|Hdim];
    repeat split; try done; try compute_done; intros Hin;
    first [ done | compute_done | exfalso; revert Hin; compute_done ].
Qed.

End StaticCatalog.

(** A static analysis in two dimensions, at point 7; a dynamic one has the
    same catalogue. *)
Lemma static_volume_catalog_keeps_rates_witness :
  @static_analysis su2_option_structure (sample_config 0 false false false 0 0 1) ∧
  ∃ volume record,
    volume_catalog (sample_object 0 2 false false)
      (sample_config 0 false false false 0 0 1) = Some volume ∧
    @volume_point su2_option_structure (sample_object 0 2 false false)
      (sample_config 0 false false false 0 0 1) (sample_geometry 2)
      (sample_solver PrimFloat.one) 7 = Some record ∧
    "VELOCITY-X" ∈ volume ∧ (("VELOCITY-X", 7) ∉ journal record) ∧
    volume_catalog (sample_object 0 2 true false)
      (sample_config 0 true false false 0 0 1) = Some volume.
Proof.
  assert (@static_analysis su2_option_structure (sample_config 0 false false false 0 0 1))
    as Hstatic by (split; [reflexivity | discriminate]).
  split; [exact Hstatic|].
  destruct (@static_volume_catalog_keeps_rates su2_option_structure
              (fresh_output false) (sample_config 0 false false false 0 0 1)
              (sample_geometry 2) 0 (sample_solver PrimFloat.one) 7)
    as (volume & record & Hvolume & Hrecord & Hvx & _ & _ & _ & _ & _ & Hsame & Hrates).
  exists volume, record. split; [exact Hvolume|]. split; [exact Hrecord|].
  split; [exact Hvx|]. split; [apply (Hrates Hstatic); compute_done|].
  apply (Hsame (fresh_output false) (sample_config 0 true false false 0 0 1)
           (sample_geometry 2) 0). reflexivity.
Defined.

(** ** A deformation regime outside the two known ones *)

(** C7, as stated, fails: with a regime that is neither value the
    constructor completes and both catalogues are produced. *)
Lemma unrecognised_geometry_rejected_fails :
  ¬ @unrecognised_geometry_rejected su2_option_structure
      (fresh_output false) (sample_config 2 false false false 0 0 1) (sample_geometry 2) 0.
Proof.
  intros Hclaim.
  destruct Hclaim as [Hhistory _]; [discriminate | discriminate |].
  rewrite history_catalog_eq in Hhistory. discriminate.
Qed.

Section UnrecognisedRegime.
Context `{OptionStructure}.

(** C7, amended: constructing the object with a deformation regime that is
    neither [SMALL_DEFORMATIONS] nor [LARGE_DEFORMATIONS] reports nothing:
    the constructor completes with [linear_analysis] and
    [nonlinear_analysis] both false and [nVar_FEM] unassigned, and both
    catalogues are then produced, the same as for any other
    configuration. *)
Theorem unrecognised_geometry_constructs
    (base : COutput) (config : CConfig) (geometry : CGeometry) (val_iZone : Z) :
  GetGeometricConditions config ≠ SMALL_DEFORMATIONS →
  GetGeometricConditions config ≠ LARGE_DEFORMATIONS →
  linear_analysis (CElasticityOutput_ctor base config geometry val_iZone) = false ∧
  nonlinear_analysis (CElasticityOutput_ctor base config geometry val_iZone) = false ∧
  nVar_FEM (CElasticityOutput_ctor base config geometry val_iZone) = None ∧
  history_catalog (CElasticityOutput_ctor base config geometry val_iZone) config
    = Some history_fields ∧
  volume_catalog (CElasticityOutput_ctor base config geometry val_iZone) config
    = Some (volume_fields (GetnDim geometry =? 3)).
Proof.
  intros Hsmall Hlarge.
  destruct (ctor_neither base config geometry val_iZone Hsmall Hlarge) as [Hlin Hnonlin].
  split; [done|]. split; [done|].
  split.
  { cbn in Hlin, Hnonlin |- *. by rewrite Hlin, Hnonlin. }
  split; [apply history_catalog_eq|].
  by rewrite volume_catalog_eq, ctor_nDim.
Qed.

End UnrecognisedRegime.

(** A deformation regime of 2, where the two known ones are 0 and 1. *)
Lemma unrecognised_geometry_constructs_witness :
  linear_analysis (sample_object 2 2 false false) = false ∧
  nonlinear_analysis (sample_object 2 2 false false) = false ∧
  nVar_FEM (sample_object 2 2 false false) = None ∧
  history_catalog (sample_object 2 2 false false)
    (sample_config 2 false false false 0 0 1) = Some history_fields ∧
  volume_catalog (sample_object 2 2 false false)
    (sample_config 2 false false false 0 0 1) = Some (volume_fields false).
Proof.
  apply (@unrecognised_geometry_constructs su2_option_structure
           (fresh_output false) (sample_config 2 false false false 0 0 1)
           (sample_geometry 2) 0); discriminate.
Defined.

(** ** The header decision *)

(** Taking the remainder by zero has no defined result. *)
Lemma WriteScreen_Header_undefined ulong_modulus this config :
  nonlinear_analysis this = false →
  (GetWrt_Con_Freq config * 40) mod ulong_modulus = 0 →
  WriteScreen_Header ulong_modulus this config = None.
Proof. intros Hnonlin Hzero. unfold WriteScreen_Header. by rewrite Hnonlin, Hzero. Qed.

(** The header decision where it is the stated one: in a nonlinear
    analysis, and otherwise when 40 times the write frequency is positive
    and representable. *)
Theorem WriteScreen_Header_decision
    (ulong_modulus : Z) (this : CElasticityOutput) (config : CConfig) :
  nonlinear_analysis this = true ∨ 0 < GetWrt_Con_Freq config * 40 < ulong_modulus →
  ∃ write_header,
    WriteScreen_Header ulong_modulus this config = Some write_header ∧
    (write_header = true ↔
       (if nonlinear_analysis this
        then GetIntIter config = 0
        else GetExtIter config mod (GetWrt_Con_Freq config * 40) = 0) ∧
       (GetMultizone_Problem config = true → GetWrt_ZoneConv config = true)).
Proof.
  intros Hcase. unfold WriteScreen_Header.
  destruct (nonlinear_analysis this).
  - cbn. eexists. split; [reflexivity|].
    destruct (Z.eqb_spec (GetIntIter config) 0),
      (GetMultizone_Problem config), (GetWrt_ZoneConv config); naive_solver.
  - destruct Hcase as [|Hfreq]; [done|].
    rewrite (Z.mod_small (GetWrt_Con_Freq config * 40)) by lia.
    destruct (Z.eqb_spec (GetWrt_Con_Freq config * 40) 0); [lia|].
    cbn. eexists. split; [reflexivity|].
    destruct (Z.eqb_spec (GetExtIter config mod (GetWrt_Con_Freq config * 40)) 0),
      (GetMultizone_Problem config), (GetWrt_ZoneConv config); naive_solver.
Qed.

(** A linear analysis at external iteration 80 with a write frequency of
    2: the header is due. *)
Lemma WriteScreen_Header_decision_witness :
  0 < GetWrt_Con_Freq (sample_config 0 false false false 0 80 2) * 40 < 2 ^ 64 ∧
  WriteScreen_Header (2 ^ 64) (sample_object 0 2 false false)
    (sample_config 0 false false false 0 80 2) = Some true.
Proof.
  assert (0 < GetWrt_Con_Freq (sample_config 0 false false false 0 80 2) * 40 < 2 ^ 64)
    as Hfreq by (cbn; lia).
  split; [exact Hfreq|].
  destruct (WriteScreen_Header_decision (2 ^ 64) (sample_object 0 2 false false)
              (sample_config 0 false false false 0 80 2) (or_intror Hfreq))
    as (write_header & -> & Htrue).
  f_equal. apply Htrue. split; [reflexivity | discriminate].
Defined.

(** C4, as stated, fails: with a write frequency of 0 the linear branch
    takes the remainder by zero and there is no decision; with a write
    frequency of 2^62 + 1 the product with 40 wraps around to 40, and at
    external iteration 80 the header is due although 80 is no multiple of
    40 * (2^62 + 1). *)
Lemma header_decision_as_stated_fails :
  ¬ header_decision_as_stated (2 ^ 64) (sample_object 0 2 false false)
      (sample_config 0 false false false 0 80 0) ∧
  ¬ header_decision_as_stated (2 ^ 64) (sample_object 0 2 false false)
      (sample_config 0 false false false 0 80 (2 ^ 62 + 1)).
Proof.
  split.
  - intros (write_header & Hheader & _). discriminate Hheader.
  - intros (write_header & Hheader & Hiff).
    vm_compute in Hheader. injection Hheader as <-.
    destruct Hiff as [Hdue _]. destruct (Hdue eq_refl) as [Hmultiple _].
    vm_compute in Hmultiple. discriminate Hmultiple.
Qed.

(** C4, amended: for every configuration and iteration counters, in a
    nonlinear analysis the header decision is true iff the inner iteration
    counter is 0; otherwise the divisor is 40 times the write frequency as
    an [unsigned long], with wrap-around: if it is zero there is no
    decision (the remainder is taken by zero), and if not the decision is
    true iff the external iteration counter is a multiple of it, which is
    the stated 40 times the write frequency whenever that product is
    positive and representable. In a multizone run the decision is, in
    addition, and-ed with the opt-in flag. *)
Theorem WriteScreen_Header_cases
    (ulong_modulus : Z) (this : CElasticityOutput) (config : CConfig) :
  (nonlinear_analysis this = true →
   ∃ write_header,
     WriteScreen_Header ulong_modulus this config = Some write_header ∧
     (write_header = true ↔
        GetIntIter config = 0 ∧
        (GetMultizone_Problem config = true → GetWrt_ZoneConv config = true))) ∧
  (nonlinear_analysis this = false →
   (GetWrt_Con_Freq config * 40) mod ulong_modulus = 0 →
   WriteScreen_Header ulong_modulus this config = None) ∧
  (nonlinear_analysis this = false →
   (GetWrt_Con_Freq config * 40) mod ulong_modulus ≠ 0 →
   ∃ write_header,
     WriteScreen_Header ulong_modulus this config = Some write_header ∧
     (write_header = true ↔
        GetExtIter config mod ((GetWrt_Con_Freq config * 40) mod ulong_modulus) = 0 ∧
        (GetMultizone_Problem config = true → GetWrt_ZoneConv config = true))) ∧
  (nonlinear_analysis this = false →
   0 < GetWrt_Con_Freq config * 40 < ulong_modulus →
   ∃ write_header,
     WriteScreen_Header ulong_modulus this config = Some write_header ∧
     (write_header = true ↔
        GetExtIter config mod (GetWrt_Con_Freq config * 40) = 0 ∧
        (GetMultizone_Problem config = true → GetWrt_ZoneConv config = true))).
Proof.
  unfold WriteScreen_Header. split_and!; intros Hnonlin; rewrite Hnonlin.
  - cbn. eexists. split; [reflexivity|].
    destruct (Z.eqb_spec (GetIntIter config) 0),
      (GetMultizone_Problem config), (GetWrt_ZoneConv config); naive_solver.
  - by intros ->.
  - intros Hdivisor.
    destruct (Z.eqb_spec ((GetWrt_Con_Freq config * 40) mod ulong_modulus) 0); [done|].
    cbn. eexists. split; [reflexivity|].
    destruct (Z.eqb_spec (GetExtIter config
                            mod ((GetWrt_Con_Freq config * 40) mod ulong_modulus)) 0),
      (GetMultizone_Problem config), (GetWrt_ZoneConv config); naive_solver.
  - intros Hfreq. rewrite (Z.mod_small (GetWrt_Con_Freq config * 40)) by lia.
    destruct (Z.eqb_spec (GetWrt_Con_Freq config * 40) 0); [lia|].
    cbn. eexists. split; [reflexivity|].
    destruct (Z.eqb_spec (GetExtIter config mod (GetWrt_Con_Freq config * 40)) 0),
      (GetMultizone_Problem config), (GetWrt_ZoneConv config); naive_solver.
Qed.

(** A write frequency of 0 gives no decision; a write frequency of 2 at
    external iteration 80 gives a header. *)
Lemma WriteScreen_Header_cases_witness :
  WriteScreen_Header (2 ^ 64) (sample_object 0 2 false false)
    (sample_config 0 false false false 0 80 0) = None ∧
  ∃ write_header,
    WriteScreen_Header (2 ^ 64) (sample_object 0 2 false false)
      (sample_config 0 false false false 0 80 2) = Some write_header ∧
    write_header = true.
Proof.
  split.
  - destruct (WriteScreen_Header_cases (2 ^ 64) (sample_object 0 2 false false)
                (sample_config 0 false false false 0 80 0))
      as (_ & Hnone & _).
    apply Hnone; reflexivity.
  - destruct (WriteScreen_Header_cases (2 ^ 64) (sample_object 0 2 false false)
                (sample_config 0 false false false 0 80 2))
      as (_ & _ & _ & Hplain).
    assert (0 < GetWrt_Con_Freq (sample_config 0 false false false 0 80 2) * 40 < 2 ^ 64)
      as Hfreq by (cbn; lia).
    destruct (Hplain eq_refl Hfreq) as (write_header & Hheader & Hdue).
    exists write_header. split; [exact Hheader|].
    apply Hdue. split; [reflexivity | discriminate].
Defined.

(** The scenarios of the header cadence. *)
Example header_first_inner_iteration :
  WriteScreen_Header (2 ^ 64) (sample_object 1 2 false false)
    (sample_config 1 false false false 0 17 1) = Some true ∧
  WriteScreen_Header (2 ^ 64) (sample_object 1 2 false false)
    (sample_config 1 false false false 5 17 1) = Some false.
Proof. split; reflexivity. Qed.

Example header_linear_cadence :
  WriteScreen_Header (2 ^ 64) (sample_object 0 2 false false)
    (sample_config 0 false false false 3 80 2) = Some true ∧
  WriteScreen_Header (2 ^ 64) (sample_object 0 2 false false)
    (sample_config 0 false false false 3 81 2) = Some false.
Proof. split; reflexivity. Qed.

Example header_multizone_no_opt_in :
  WriteScreen_Header (2 ^ 64) (sample_object 0 2 false true)
    (sample_config 0 false true false 0 80 2) = Some false.
Proof. reflexivity. Qed.

(** ** The row decisions *)

(** C5, as stated, fails: in a multizone run without the opt-in flag the
    history-file decision is still true. *)
Lemma row_decisions_follow_opt_in_fails :
  ¬ row_decisions_follow_opt_in (sample_object 0 2 false true)
      (sample_config 0 false true false 0 0 1).
Proof. intros [_ Hfile]. discriminate Hfile. Qed.

(** C5, amended: the screen-row decision is true by default and, in a
    multizone run, is the opt-in flag; the history-file decision is true for
    every configuration, whatever the multizone and opt-in flags. With
    multizone on and the opt-in flag off the screen row is suppressed and
    the history-file row is not. *)
Theorem row_decisions (this : CElasticityOutput) (config : CConfig) :
  WriteScreen_Output this config
    = (if GetMultizone_Problem config then GetWrt_ZoneConv config else true) ∧
  WriteHistoryFile_Output this config = true ∧
  (GetMultizone_Problem config = true → GetWrt_ZoneConv config = false →
   WriteScreen_Output this config = false ∧ WriteHistoryFile_Output this config = true).
Proof.
  split; [apply WriteScreen_Output_eq|]. split; [reflexivity|].
  intros Hmz Hopt. by rewrite WriteScreen_Output_eq, Hmz, Hopt.
Qed.

(** A multizone run without the opt-in flag. *)
Lemma row_decisions_witness :
  WriteScreen_Output (sample_object 0 2 false true)
    (sample_config 0 false true false 0 0 1) = false ∧
  WriteHistoryFile_Output (sample_object 0 2 false true)
    (sample_config 0 false true false 0 0 1) = true.
Proof.
  apply (row_decisions (sample_object 0 2 false true)
           (sample_config 0 false true false 0 0 1)); reflexivity.
Defined.

(** ** What the history loader writes *)

(** C6, as stated, fails: [PHYS_TIME] is registered for every configuration
    and [LoadHistoryData] never writes it. *)
Lemma every_registered_field_written_once_fails :
  ¬ @every_registered_field_written_once su2_option_structure log10_sample
      (sample_object 0 2 false false) (sample_config 0 false false false 0 0 1)
      (sample_geometry 2) (sample_solver PrimFloat.one).
Proof.
  intros (ids & record & Hids & Hrecord & Hall).
  rewrite history_catalog_eq in Hids. injection Hids as <-.
  destruct (@history_iteration_Some su2_option_structure log10_sample
              (sample_object 0 2 false false) (sample_config 0 false false false 0 0 1)
              (sample_geometry 2) (sample_solver PrimFloat.one))
    as (record' & Hrecord' & Hjournal).
  rewrite Hrecord in Hrecord'. injection Hrecord' as <-.
  specialize (Hall "PHYS_TIME"). rewrite Hjournal in Hall.
  discriminate Hall. compute_done.
Qed.

Section HistoryLoader.
Context `{OptionStructure}.
Variable log10 : su2double → su2double.
Implicit Types (this : CElasticityOutput) (config : CConfig)
  (geometry : CGeometry) (solver : nat → CSolver).

Lemma history_writes_once this f :
  f ∈ history_writes this →
  f ∈ history_fields ∧ times_written f (history_writes this) = 1%nat.
Proof.
  unfold history_writes. revert f.
  branches this; cbn [app]; each_member; compute_done.
Qed.

(** C6, amended: for every configuration, every field that
    [LoadHistoryData] writes is registered in the history catalogue and is
    written exactly once. The fields it writes are: the three iteration
    counters, [VMS], [LOAD_INCREMENT] and [LOAD_RAMP] always;
    [RMS_DISP_X/Y] in a linear analysis, [RMS_UTOL/RTOL] in a nonlinear
    one, [BGS_DISP_X/Y] in a multizone run, and the third member of each
    of these families ([RMS_DISP_Z], [RMS_ETOL], [BGS_DISP_Z]) iff, in
    addition, the dimension is 3. Every other registered field is not
    written by the loader: [PHYS_TIME] and [LINSOL_ITER] for every
    configuration, and the residual fields of the families that are not
    active. *)
Theorem LoadHistoryData_writes_once this config geometry solver :
  ∃ ids record,
    history_catalog this config = Some ids ∧
    history_iteration log10 this config geometry solver = Some record ∧
    (∀ f, f ∈ journal record →
          f ∈ ids ∧ times_written f (journal record) = 1%nat) ∧
    (∀ f, f ∈ journal record ↔
       (f = "TIME_ITER" ∨ f = "INNER_ITER" ∨ f = "OUTER_ITER" ∨
        f = "VMS" ∨ f = "LOAD_INCREMENT" ∨ f = "LOAD_RAMP") ∨
       (linear_analysis this = true ∧
          (f = "RMS_DISP_X" ∨ f = "RMS_DISP_Y" ∨ f = "RMS_DISP_Z" ∧ nDim this = 3)) ∨
       (linear_analysis this = false ∧ nonlinear_analysis this = true ∧
          (f = "RMS_UTOL" ∨ f = "RMS_RTOL" ∨ f = "RMS_ETOL" ∧ nDim this = 3)) ∨
       (multizone this = true ∧
          (f = "BGS_DISP_X" ∨ f = "BGS_DISP_Y" ∨ f = "BGS_DISP_Z" ∧ nDim this = 3))) ∧
    (∀ f, f ∈ ["PHYS_TIME"; "LINSOL_ITER"] →
          f ∈ ids ∧ times_written f (journal record) = 0%nat).
Proof.
  destruct (history_iteration_Some log10 this config geometry solver)
    as (record & Hrecord & Hjournal).
  exists history_fields, record. rewrite Hjournal.
  split; [apply history_catalog_eq|]. split; [done|].
  split; [apply history_writes_once|].
  split; [apply history_writes_spec|].
  unfold history_writes.
  branches this; cbn [app]; each_member; compute_done.
Qed.

End HistoryLoader.

(** A linear multizone analysis in three dimensions. *)
Lemma LoadHistoryData_writes_once_witness :
  ∃ ids record,
    history_catalog (sample_object 0 3 false true)
      (sample_config 0 false true false 0 0 1) = Some ids ∧
    @history_iteration su2_option_structure log10_sample (sample_object 0 3 false true)
      (sample_config 0 false true false 0 0 1) (sample_geometry 3)
      (sample_solver PrimFloat.one) = Some record ∧
    "BGS_DISP_Z" ∈ journal record ∧
    times_written "BGS_DISP_Z" (journal record) = 1%nat ∧
    times_written "PHYS_TIME" (journal record) = 0%nat.
Proof.
  destruct (@LoadHistoryData_writes_once su2_option_structure log10_sample
              (sample_object 0 3 false true) (sample_config 0 false true false 0 0 1)
              (sample_geometry 3) (sample_solver PrimFloat.one))
    as (ids & record & Hids & Hrecord & Honce & Hwhich & Hnever).
  exists ids, record. split; [exact Hids|]. split; [exact Hrecord|].
  assert ("BGS_DISP_Z" ∈ journal record) as Hin.
  { apply Hwhich. right. right. right. split; [reflexivity|].
    right. right. split; reflexivity. }
  split; [exact Hin|]. split; [apply (Honce _ Hin)|].
  apply Hnever. compute_done.
Defined.

(** ** The residual transform *)

Section ResidualTransform.
Context `{OptionStructure}.
Variable log10 : su2double → su2double.
Implicit Types (this : CElasticityOutput) (config : CConfig)
  (geometry : CGeometry) (solver : nat → CSolver).

(** C8: for every iteration the history loader completes, whatever the
    residuals are, and stores every residual of an active family as
    [log10] of the value of the solver accessor behind it, with nothing in
    between: [RMS_DISP_X], [RMS_DISP_Y] (and [RMS_DISP_Z] in three
    dimensions) from [GetRes_RMS] in a linear analysis; [RMS_UTOL],
    [RMS_RTOL] (and [RMS_ETOL]) from [GetRes_FEM] in a nonlinear one;
    [BGS_DISP_X], [BGS_DISP_Y] (and [BGS_DISP_Z]) from [GetRes_BGS] in a
    multizone run; and every residual field written holds such a
    logarithm. There is no guard and no clamping: where the logarithm of
    zero is minus infinity, a residual equal to zero leaves minus
    infinity, a non-finite value, in the record, and the loader still
    completes. *)
Theorem LoadHistoryData_residuals_log10 this config geometry solver :
  ∃ record,
    history_iteration log10 this config geometry solver = Some record ∧
    (linear_analysis this = true →
     values record !! "RMS_DISP_X" = Some (log10 (GetRes_RMS (solver FEA_SOL) 0)) ∧
     values record !! "RMS_DISP_Y" = Some (log10 (GetRes_RMS (solver FEA_SOL) 1)) ∧
     (nDim this = 3 →
      values record !! "RMS_DISP_Z" = Some (log10 (GetRes_RMS (solver FEA_SOL) 2)))) ∧
    (linear_analysis this = false → nonlinear_analysis this = true →
     values record !! "RMS_UTOL" = Some (log10 (GetRes_FEM (solver FEA_SOL) 0)) ∧
     values record !! "RMS_RTOL" = Some (log10 (GetRes_FEM (solver FEA_SOL) 1)) ∧
     (nDim this = 3 →
      values record !! "RMS_ETOL" = Some (log10 (GetRes_FEM (solver FEA_SOL) 2)))) ∧
    (multizone this = true →
     values record !! "BGS_DISP_X" = Some (log10 (GetRes_BGS (solver FEA_SOL) 0)) ∧
     values record !! "BGS_DISP_Y" = Some (log10 (GetRes_BGS (solver FEA_SOL) 1)) ∧
     (nDim this = 3 →
      values record !! "BGS_DISP_Z" = Some (log10 (GetRes_BGS (solver FEA_SOL) 2)))) ∧
    (∀ f r,
       f ∈ journal record →
       residual_source (solver FEA_SOL) f = Some r →
       values record !! f = Some (log10 r)) ∧
    ((∀ x, PrimFloat.is_zero x = true → log10 x = PrimFloat.neg_infinity) →
     ∀ f r,
       f ∈ journal record →
       residual_source (solver FEA_SOL) f = Some r →
       PrimFloat.is_zero r = true →
       ∃ v, values record !! f = Some v ∧
            v = PrimFloat.neg_infinity ∧ PrimFloat.is_finite v = false).
Proof.
  destruct (history_iteration_Some log10 this config geometry solver)
    as (record & Hrecord & Hjournal).
  exists record. split; [done|].
  assert (∀ f r, f ∈ journal record →
                 residual_source (solver FEA_SOL) f = Some r →
                 values record !! f = Some (log10 r)) as Hvalue.
  { intros f r Hf Hr. rewrite Hjournal in Hf.
    pose proof (history_iteration_values log10 this config geometry solver f r Hf Hr)
      as Hstored.
    by rewrite Hrecord in Hstored. }
  assert (∀ f r, f ∈ history_writes this →
                 residual_source (solver FEA_SOL) f = Some r →
                 values record !! f = Some (log10 r)) as Hfamily.
  { intros f r Hf Hr. apply Hvalue; [by rewrite Hjournal | done]. }
  split_and!.
  - intros Hlinear.
    split_and!; [| |intros Hdim];
      (apply Hfamily; [apply history_writes_spec; naive_solver | reflexivity]).
  - intros Hlinear Hnonlinear.
    split_and!; [| |intros Hdim];
      (apply Hfamily; [apply history_writes_spec; naive_solver | reflexivity]).
  - intros Hmultizone.
    split_and!; [| |intros Hdim];
      (apply Hfamily; [apply history_writes_spec; naive_solver | reflexivity]).
  - exact Hvalue.
  - intros Hzero f r Hf Hr Hr0. exists (log10 r).
    split; [by apply Hvalue|]. rewrite (Hzero r Hr0). by split.
Qed.

End ResidualTransform.

(** A linear analysis all of whose residuals are zero, with a logarithm
    that is minus infinity at zero. *)
Lemma LoadHistoryData_residuals_log10_witness :
  ∃ record,
    @history_iteration su2_option_structure log10_sample (sample_object 0 2 false false)
      (sample_config 0 false false false 0 0 1) (sample_geometry 2)
      (sample_solver PrimFloat.zero) = Some record ∧
    values record !! "RMS_DISP_X" = Some PrimFloat.neg_infinity ∧
    values record !! "RMS_DISP_Y" = Some PrimFloat.neg_infinity ∧
    ∃ v, values record !! "RMS_DISP_X" = Some v ∧
         v = PrimFloat.neg_infinity ∧ PrimFloat.is_finite v = false.
Proof.
  destruct (@LoadHistoryData_residuals_log10 su2_option_structure log10_sample
              (sample_object 0 2 false false) (sample_config 0 false false false 0 0 1)
              (sample_geometry 2) (sample_solver PrimFloat.zero))
    as (record & Hrecord & Hlinear & _ & _ & _ & Hzero).
  exists record. split; [exact Hrecord|].
  destruct (Hlinear eq_refl) as (Hx & Hy & _).
  split; [exact Hx|]. split; [exact Hy|].
  assert ("RMS_DISP_X" ∈ journal record) as Hin.
  { destruct (@history_iteration_Some su2_option_structure log10_sample
                (sample_object 0 2 false false) (sample_config 0 false false false 0 0 1)
                (sample_geometry 2) (sample_solver PrimFloat.zero))
      as (record' & Hrecord' & Hjournal).
    rewrite Hrecord in Hrecord'. injection Hrecord' as <-.
    rewrite Hjournal. compute_done. }
  apply (Hzero (λ x Hx0, ltac:(unfold log10_sample; rewrite Hx0; reflexivity))
           "RMS_DISP_X" PrimFloat.zero Hin eq_refl eq_refl).
Defined.

(** ** Out-of-plane and dynamic components *)


Section ComponentGates.
Context `{OptionStructure}.
Variable log10 : su2double → su2double.
Implicit Types (this : CElasticityOutput) (config : CConfig)
  (geometry : CGeometry) (solver : nat → CSolver).


End ComponentGates.


(** ** The default convergence field *)

Section ConvergenceField.
Context `{OptionStructure}.
Variable log10 : su2double → su2double.
Implicit Types (this : CElasticityOutput) (config : CConfig)
  (geometry : CGeometry) (solver : nat → CSolver).

Lemma history_iteration_no_linear_residual this config geometry solver :
  linear_analysis this = false →
  history_iteration log10 this config geometry solver
    ≫= (λ record, Some (values record !! "RMS_DISP_X")) = Some None.
Proof.
  unfold history_iteration. rewrite history_catalog_eq.
  unfold LoadHistoryData.
  generalize (solver FEA_SOL), (su2double_of_Z (curr_TimeIter this)),
    (su2double_of_Z (curr_InnerIter this)), (su2double_of_Z (curr_OuterIter this)).
  intros fea_solver time_iter inner_iter outer_iter.
  branches this; intros Hlin; try discriminate Hlin; vm_compute; reflexivity.
Qed.

(** C10: when no convergence field is configured, the constructor sets
    the convergence field to [RMS_DISP_X] for every configuration; that
    includes [LARGE_DEFORMATIONS], where [LoadHistoryData] never writes
    [RMS_DISP_X] and the record holds no value for it. *)
Theorem default_convergence_field
    (base : COutput) config geometry (val_iZone : Z) solver :
  Conv_Field base = "" →
  Conv_Field (CElasticityOutput_ctor base config geometry val_iZone) = "RMS_DISP_X" ∧
  (GetGeometricConditions config = LARGE_DEFORMATIONS →
   ∃ record,
     history_iteration log10 (CElasticityOutput_ctor base config geometry val_iZone)
       config geometry solver = Some record ∧
     ("RMS_DISP_X" ∉ journal record) ∧
     values record !! "RMS_DISP_X" = None).
Proof.
  intros Hempty. split; [cbn; by rewrite Hempty|].
  intros Hmode.
  destruct (ctor_large base config geometry val_iZone Hmode) as [Hlin Hnonlin].
  destruct (history_iteration_Some log10
              (CElasticityOutput_ctor base config geometry val_iZone)
              config geometry solver) as (record & Hrecord & Hjournal).
  exists record. split; [done|]. split.
  - rewrite Hjournal, history_writes_spec, Hlin. naive_solver.
  - pose proof (history_iteration_no_linear_residual _ config geometry solver Hlin)
      as Hvalue.
    rewrite Hrecord in Hvalue. cbn in Hvalue. by injection Hvalue.
Qed.

End ConvergenceField.

(** A nonlinear analysis with no convergence field configured. *)
Lemma default_convergence_field_witness :
  Conv_Field (fresh_output false) = "" ∧
  Conv_Field (sample_object 1 2 false false) = "RMS_DISP_X" ∧
  ∃ record,
    @history_iteration su2_option_structure log10_sample (sample_object 1 2 false false)
      (sample_config 1 false false false 0 0 1) (sample_geometry 2)
      (sample_solver PrimFloat.one) = Some record ∧
    ("RMS_DISP_X" ∉ journal record) ∧
    values record !! "RMS_DISP_X" = None.
Proof.
  split; [reflexivity|].
  destruct (@default_convergence_field su2_option_structure log10_sample
              (fresh_output false) (sample_config 1 false false false 0 0 1)
              (sample_geometry 2) 0 (sample_solver PrimFloat.one) eq_refl)
    as [Hfield Hlarge].
  split; [exact Hfield | apply Hlarge; reflexivity].
Defined.


(** * Further properties *)

(** ** Sequences of writes *)

Section Assign.
Context {K : Type} `{Countable K}.
Implicit Types (store : RecordStore K) (writes : list (K * su2double))
  (m : M (RecordStore K) unit).

Lemma registered_assign writes store :
  registered (assign writes store) = registered store.
Proof. reflexivity. Qed.

Lemma assign_app writes1 writes2 store :
  assign (writes1 ++ writes2) store = assign writes2 (assign writes1 store).
Proof. unfold assign. cbn. by rewrite fmap_app, !foldl_app. Qed.

Lemma journal_assign writes store :
  journal (assign writes store) = (journal store ++ writes.*1)%list.
Proof.
  unfold assign. cbn. generalize (journal store).
  induction writes as [|[k v] writes IH]; intros written; cbn.
  - by rewrite app_nil_r.
  - rewrite IH. unfold push_back. by rewrite <- app_assoc.
Qed.

(** A key that is not assigned keeps its value. *)
Lemma values_assign_other writes store k :
  k ∉ writes.*1 → values (assign writes store) !! k = values store !! k.
Proof.
  unfold assign. cbn. generalize (values store).
  induction writes as [|[k' v] writes IH]; intros vals Hk; cbn; [done|].
  cbn in Hk. apply not_elem_of_cons in Hk as [Hne Hk].
  rewrite IH by done. by apply lookup_insert_ne.
Qed.

(** A key that is assigned once holds what was assigned. *)
Lemma values_assign_once writes store k v :
  NoDup writes.*1 → (k, v) ∈ writes → values (assign writes store) !! k = Some v.
Proof.
  unfold assign. cbn. generalize (values store).
  induction writes as [|[k' v'] writes IH]; intros vals Hnodup Hin; cbn.
  - by apply elem_of_nil in Hin.
  - cbn in Hnodup. apply NoDup_cons in Hnodup as [Hfresh Hnodup].
    apply elem_of_cons in Hin as [[= <- <-]|Hin].
    + pose proof (values_assign_other writes
                    {| registered := []; values := <[k:=v]> vals; journal := [] |} k Hfresh)
        as Hkeep.
      cbn in Hkeep. rewrite Hkeep. apply lookup_insert_eq.
    + by apply IH.
Qed.

(** The last of several assignments to the same keys is the one that
    stays. *)
Lemma values_assign_overwrite writes1 writes2 store :
  NoDup writes2.*1 → (∀ k, k ∈ writes1.*1 → k ∈ writes2.*1) →
  values (assign writes2 (assign writes1 store)) = values (assign writes2 store).
Proof.
  intros Hnodup Hsub. apply map_eq. intros k.
  destruct (decide (k ∈ writes2.*1)) as [Hin|Hout].
  - apply list_elem_of_fmap in Hin as ([k' v] & -> & Hin). cbn [fst].
    by rewrite !(values_assign_once writes2 _ k' v).
  - rewrite (values_assign_other writes2 (assign writes1 store)) by done.
    rewrite (values_assign_other writes2 store) by done.
    apply values_assign_other. intros Hin. by apply Hout, Hsub.
Qed.

(** Assignments to disjoint keys can be made in either order. *)
Lemma values_assign_commute writes1 writes2 store :
  NoDup writes1.*1 → NoDup writes2.*1 →
  (∀ k, k ∈ writes1.*1 → k ∉ writes2.*1) →
  values (assign writes2 (assign writes1 store))
  = values (assign writes1 (assign writes2 store)).
Proof.
  intros Hnodup1 Hnodup2 Hdisjoint. apply map_eq. intros k.
  destruct (decide (k ∈ writes2.*1)) as [Hin2|Hout2].
  - assert (k ∉ writes1.*1) as Hout1 by (intros Hin1; by apply (Hdisjoint k)).
    rewrite (values_assign_other writes1) by done.
    apply list_elem_of_fmap in Hin2 as ([k' v] & -> & Hin2). cbn [fst].
    by rewrite !(values_assign_once writes2 _ k' v).
  - rewrite (values_assign_other writes2) by done.
    destruct (decide (k ∈ writes1.*1)) as [Hin1|Hout1].
    + apply list_elem_of_fmap in Hin1 as ([k' v] & -> & Hin1). cbn [fst].
      by rewrite !(values_assign_once writes1 _ k' v).
    + rewrite (values_assign_other writes1 (assign writes2 store)) by done.
      rewrite (values_assign_other writes1 store) by done.
      by rewrite (values_assign_other writes2 store).
Qed.

Lemma runs_ret : runs (mret tt : M (RecordStore K) unit) [] [].
Proof. intros [reg vals written] _. reflexivity. Qed.

Lemma runs_set_value name (key : K) value :
  runs (set_value name key value) [name] [(key, value)].
Proof.
  intros store Hreg. unfold set_value.
  rewrite bool_decide_eq_true_2 by (apply Hreg; left). reflexivity.
Qed.

Lemma runs_bind m1 m2 names1 names2 writes1 writes2 :
  runs m1 names1 writes1 → runs m2 names2 writes2 →
  runs (m1 ;; m2) (names1 ++ names2) (writes1 ++ writes2).
Proof.
  intros Hm1 Hm2 store Hreg. unfold mbind, M_bind.
  rewrite Hm1 by (intros f Hf; apply Hreg, elem_of_app; by left).
  rewrite Hm2 by (intros f Hf; apply Hreg, elem_of_app; by right).
  by rewrite assign_app.
Qed.

Lemma runs_when_true m names writes :
  runs m names writes → runs (when true m) names writes.
Proof. done. Qed.

Lemma runs_when_false m : runs (when false m) [] [].
Proof. apply runs_ret. Qed.

Lemma runs_eq m names names' writes writes' :
  runs m names writes → names = names' → writes = writes' → runs m names' writes'.
Proof. by intros ? <- <-. Qed.

End Assign.

(** Finds a member in a list literal. *)
Ltac in_list := repeat first [ apply list_elem_of_here | apply list_elem_of_further ].

(** Builds the sequence of writes of a loader whose branches are decided. *)
Ltac run_writes :=
  repeat lazymatch goal with
         | |- runs (mbind _ _) _ _ => eapply runs_bind
         | |- runs (when true _) _ _ => apply runs_when_true
         | |- runs (when false _) _ _ => apply runs_when_false
         | |- runs (set_value _ _ _) _ _ => apply runs_set_value
         | |- runs (mret _) _ _ => apply runs_ret
         end.

(** ** The loaders on a record that is already in use *)

Section LoaderRuns.
Context `{OptionStructure}.
Variable log10 : su2double → su2double.
Implicit Types (this : CElasticityOutput) (config : CConfig)
  (geometry : CGeometry) (solver : nat → CSolver).

Lemma LoadHistoryData_runs this config geometry solver :
  runs (LoadHistoryData log10 this config geometry solver)
    (history_writes this) (history_assignments log10 this (solver FEA_SOL)).
Proof.
  unfold LoadHistoryData, SetHistoryOutputValue, history_writes, history_assignments.
  destruct (linear_analysis this), (nonlinear_analysis this), (multizone this),
    (nDim this =? 3); cbv beta iota;
    (eapply runs_eq; [run_writes | reflexivity | reflexivity]).
Qed.

Lemma LoadVolumeData_runs this config geometry solver iPoint :
  runs (LoadVolumeData this config geometry solver iPoint)
    (volume_writes this)
    (at_point iPoint <$> volume_assignments this (solver_node (solver FEA_SOL) iPoint)
                           (geometry_node geometry iPoint)).
Proof.
  unfold LoadVolumeData, SetVolumeOutputValue, volume_writes, volume_assignments.
  destruct (dynamic this), (nDim this =? 3); cbv beta iota;
    (eapply runs_eq; [run_writes | reflexivity | reflexivity]).
Qed.

Lemma history_assignments_names this fea_solver :
  (history_assignments log10 this fea_solver).*1 = history_writes this.
Proof.
  unfold history_assignments, history_writes.
  by destruct (linear_analysis this), (nonlinear_analysis this), (multizone this),
    (nDim this =? 3).
Qed.

Lemma volume_assignments_names this Node_Struc Node_Geo :
  (volume_assignments this Node_Struc Node_Geo).*1 = volume_writes this.
Proof.
  unfold volume_assignments, volume_writes.
  by destruct (dynamic this), (nDim this =? 3).
Qed.

Lemma at_point_keys (iPoint : Z) (writes : list (string * su2double)) :
  (at_point iPoint <$> writes).*1 = (λ f, (f, iPoint)) <$> writes.*1.
Proof. rewrite <- !list_fmap_compose. by apply list_fmap_ext. Qed.

Lemma history_writes_NoDup this : NoDup (history_writes this).
Proof.
  unfold history_writes.
  destruct (linear_analysis this), (nonlinear_analysis this), (multizone this),
    (nDim this =? 3); compute_done.
Qed.

Lemma volume_writes_NoDup this : NoDup (volume_writes this).
Proof.
  unfold volume_writes. destruct (dynamic this), (nDim this =? 3); compute_done.
Qed.

Lemma history_writes_registered this f :
  f ∈ history_writes this → f ∈ history_fields.
Proof.
  unfold history_writes. revert f.
  destruct (linear_analysis this), (nonlinear_analysis this), (multizone this),
    (nDim this =? 3); each_member; compute_done.
Qed.

Lemma volume_writes_registered this f :
  f ∈ volume_writes this → f ∈ volume_fields (nDim this =? 3).
Proof.
  unfold volume_writes. revert f.
  destruct (dynamic this), (nDim this =? 3); each_member; compute_done.
Qed.

Lemma point_keys_NoDup (iPoint : Z) (names : list string) :
  NoDup names → NoDup ((λ f, (f, iPoint)) <$> names).
Proof. apply NoDup_fmap_2. by intros f g [= ->]. Qed.

Lemma elem_of_point_keys (iPoint : Z) (names : list string) (k : string * Z) :
  k ∈ (λ f, (f, iPoint)) <$> names ↔ k.2 = iPoint ∧ k.1 ∈ names.
Proof.
  rewrite list_elem_of_fmap. destruct k as [f j]. cbn. split.
  - by intros (g & [= -> ->] & Hg).
  - intros [-> Hf]. eauto.
Qed.

(** What the history record holds after a load, field by field. *)
Lemma history_load_value this fea_solver (store : RecordStore string) f v :
  (f, v) ∈ history_assignments log10 this fea_solver →
  values (assign (history_assignments log10 this fea_solver) store) !! f = Some v.
Proof.
  intros Hin. apply values_assign_once; [|done].
  rewrite history_assignments_names. apply history_writes_NoDup.
Qed.

(** What the volume record holds after a load, field by field. *)
Lemma volume_load_value this (Node_Struc : CVariable) (Node_Geo : CPoint) (iPoint : Z)
    (store : RecordStore (string * Z)) (f : string) (v : su2double) :
  (f, v) ∈ volume_assignments this Node_Struc Node_Geo →
  values (assign (at_point iPoint <$> volume_assignments this Node_Struc Node_Geo) store)
    !! (f, iPoint) = Some v.
Proof.
  intros Hin. apply values_assign_once.
  - rewrite at_point_keys, volume_assignments_names.
    apply point_keys_NoDup, volume_writes_NoDup.
  - apply list_elem_of_fmap. by exists (f, v).
Qed.

(** X1. On any record opened on the history catalogue, fresh or left over
    from earlier iterations, [LoadHistoryData] completes; it keeps the
    registered fields, appends the fields it writes to the journal, leaves
    in every field it writes the value of this iteration, and leaves every
    other field at the value it had before. *)
Theorem LoadHistoryData_carries_over
    this config geometry solver (store : RecordStore string) :
  history_catalog this config = Some (registered store) →
  ∃ store',
    LoadHistoryData log10 this config geometry solver store = Ok (tt, store') ∧
    registered store' = registered store ∧
    journal store' = (journal store ++ history_writes this)%list ∧
    (∀ f v, (f, v) ∈ history_assignments log10 this (solver FEA_SOL) →
            values store' !! f = Some v) ∧
    (∀ f, f ∉ history_writes this → values store' !! f = values store !! f).
Proof.
  rewrite history_catalog_eq. intros [= Hreg].
  eexists. split.
  { apply LoadHistoryData_runs. intros f Hf. rewrite <- Hreg.
    by apply history_writes_registered in Hf. }
  split; [done|].
  split; [by rewrite journal_assign, history_assignments_names|].
  split.
  - intros f v. apply history_load_value.
  - intros f Hout. apply values_assign_other.
    by rewrite history_assignments_names.
Qed.

(** X2. What an earlier iteration wrote never shows through: for two
    states of the same analysis (same regime flags, multizone flag and
    dimension), loading the second after the first leaves the same values
    as loading the second alone. In particular loading twice from the same
    state changes nothing the second time. *)
Theorem LoadHistoryData_overwrites
    this1 this2 config geometry solver1 solver2 (store : RecordStore string) :
  history_catalog this1 config = Some (registered store) →
  linear_analysis this1 = linear_analysis this2 →
  nonlinear_analysis this1 = nonlinear_analysis this2 →
  multizone this1 = multizone this2 →
  nDim this1 = nDim this2 →
  ∃ store1 store12 store2,
    LoadHistoryData log10 this1 config geometry solver1 store = Ok (tt, store1) ∧
    LoadHistoryData log10 this2 config geometry solver2 store1 = Ok (tt, store12) ∧
    LoadHistoryData log10 this2 config geometry solver2 store = Ok (tt, store2) ∧
    values store12 = values store2.
Proof.
  rewrite history_catalog_eq. intros [= Hreg] Hlin Hnonlin Hmz Hdim.
  assert (history_writes this1 = history_writes this2) as Hsame.
  { unfold history_writes. by rewrite Hlin, Hnonlin, Hmz, Hdim. }
  assert (∀ this, ∀ f, f ∈ history_writes this → f ∈ registered store) as Hok.
  { intros this f Hf. rewrite <- Hreg. by apply history_writes_registered in Hf. }
  do 3 eexists. split; [apply LoadHistoryData_runs, Hok|].
  split; [apply LoadHistoryData_runs; rewrite registered_assign; apply Hok|].
  split; [apply LoadHistoryData_runs, Hok|].
  apply values_assign_overwrite.
  - rewrite history_assignments_names. apply history_writes_NoDup.
  - intros f. by rewrite !history_assignments_names, Hsame.
Qed.

(** X3. On any record opened on the volume catalogue, [LoadVolumeData]
    completes for every point; every field it writes holds, at that point,
    the value the node accessors gave, and every other key of the record,
    the keys of all other points among them, keeps its value. *)
Theorem LoadVolumeData_carries_over
    this config geometry solver (iPoint : Z) (store : RecordStore (string * Z)) :
  volume_catalog this config = Some (registered store) →
  ∃ store',
    LoadVolumeData this config geometry solver iPoint store = Ok (tt, store') ∧
    registered store' = registered store ∧
    journal store'
      = (journal store ++ ((λ f, (f, iPoint)) <$> volume_writes this))%list ∧
    (∀ f v, (f, v) ∈ volume_assignments this (solver_node (solver FEA_SOL) iPoint)
                       (geometry_node geometry iPoint) →
            values store' !! (f, iPoint) = Some v) ∧
    (∀ f j, j ≠ iPoint ∨ f ∉ volume_writes this →
            values store' !! (f, j) = values store !! (f, j)).
Proof.
  rewrite volume_catalog_eq. intros [= Hreg].
  eexists. split.
  { apply LoadVolumeData_runs. intros f Hf. rewrite <- Hreg.
    by apply volume_writes_registered in Hf. }
  split; [done|].
  split; [by rewrite journal_assign, at_point_keys, volume_assignments_names|].
  split.
  - intros f v. apply volume_load_value.
  - intros f j Hother. apply values_assign_other.
    rewrite at_point_keys, volume_assignments_names, elem_of_point_keys. cbn.
    naive_solver.
Qed.

(** X4. Two distinct points can be loaded in either order: the values of
    the record are the same. *)
Theorem LoadVolumeData_points_commute
    this config geometry solver (i j : Z) (store : RecordStore (string * Z)) :
  volume_catalog this config = Some (registered store) →
  i ≠ j →
  ∃ store_i store_ij store_j store_ji,
    LoadVolumeData this config geometry solver i store = Ok (tt, store_i) ∧
    LoadVolumeData this config geometry solver j store_i = Ok (tt, store_ij) ∧
    LoadVolumeData this config geometry solver j store = Ok (tt, store_j) ∧
    LoadVolumeData this config geometry solver i store_j = Ok (tt, store_ji) ∧
    values store_ij = values store_ji.
Proof.
  rewrite volume_catalog_eq. intros [= Hreg] Hne.
  assert (∀ f, f ∈ volume_writes this → f ∈ registered store) as Hok.
  { intros f Hf. rewrite <- Hreg. by apply volume_writes_registered in Hf. }
  do 4 eexists. split; [apply LoadVolumeData_runs, Hok|].
  split; [apply LoadVolumeData_runs; rewrite registered_assign; apply Hok|].
  split; [apply LoadVolumeData_runs, Hok|].
  split; [apply LoadVolumeData_runs; rewrite registered_assign; apply Hok|].
  apply values_assign_commute.
  - rewrite at_point_keys, volume_assignments_names.
    apply point_keys_NoDup, volume_writes_NoDup.
  - rewrite at_point_keys, volume_assignments_names.
    apply point_keys_NoDup, volume_writes_NoDup.
  - intros k. rewrite !at_point_keys, !volume_assignments_names, !elem_of_point_keys.
    intros [Hi _] [Hj _]. congruence.
Qed.

(** X5. The iteration counters and the summary fields are stored as they
    are read, without the logarithm: [VMS], [LOAD_INCREMENT] and
    [LOAD_RAMP] hold the solver's total, load increment and force
    coefficient, the three counters the object's current counters. *)
Theorem LoadHistoryData_plain_values
    this config geometry solver (store : RecordStore string) :
  history_catalog this config = Some (registered store) →
  ∃ store',
    LoadHistoryData log10 this config geometry solver store = Ok (tt, store') ∧
    values store' !! "TIME_ITER" = Some (su2double_of_Z (curr_TimeIter this)) ∧
    values store' !! "INNER_ITER" = Some (su2double_of_Z (curr_InnerIter this)) ∧
    values store' !! "OUTER_ITER" = Some (su2double_of_Z (curr_OuterIter this)) ∧
    values store' !! "VMS" = Some (GetTotal_CFEA (solver FEA_SOL)) ∧
    values store' !! "LOAD_INCREMENT" = Some (GetLoad_Increment (solver FEA_SOL)) ∧
    values store' !! "LOAD_RAMP" = Some (GetForceCoeff (solver FEA_SOL)).
Proof.
  rewrite history_catalog_eq. intros [= Hreg].
  eexists. split.
  { apply LoadHistoryData_runs. intros f Hf. rewrite <- Hreg.
    by apply history_writes_registered in Hf. }
  split_and!; apply history_load_value; unfold history_assignments;
    destruct (linear_analysis this), (nonlinear_analysis this), (multizone this),
      (nDim this =? 3); cbn [app]; in_list.
Qed.

(** X6. The stress vector is read in the order XX, YY, XY, ZZ, XZ, YZ:
    [STRESS-XX], [STRESS-YY] and [STRESS-XY] hold its components 0, 1 and 2
    in every dimension, and in dimension 3 [STRESS-ZZ], [STRESS-XZ] and
    [STRESS-YZ] hold its components 3, 4 and 5; in any other dimension these
    three keys keep the value they had. [VON_MISES_STRESS] holds the node's
    von Mises stress. *)
Theorem LoadVolumeData_stress_components
    this config geometry solver (iPoint : Z) (store : RecordStore (string * Z)) :
  volume_catalog this config = Some (registered store) →
  ∃ store',
    LoadVolumeData this config geometry solver iPoint store = Ok (tt, store') ∧
    values store' !! ("STRESS-XX", iPoint)
      = Some (GetStress_FEM (solver_node (solver FEA_SOL) iPoint) 0) ∧
    values store' !! ("STRESS-YY", iPoint)
      = Some (GetStress_FEM (solver_node (solver FEA_SOL) iPoint) 1) ∧
    values store' !! ("STRESS-XY", iPoint)
      = Some (GetStress_FEM (solver_node (solver FEA_SOL) iPoint) 2) ∧
    values store' !! ("VON_MISES_STRESS", iPoint)
      = Some (GetVonMises_Stress (solver_node (solver FEA_SOL) iPoint)) ∧
    (nDim this = 3 →
     values store' !! ("STRESS-ZZ", iPoint)
       = Some (GetStress_FEM (solver_node (solver FEA_SOL) iPoint) 3) ∧
     values store' !! ("STRESS-XZ", iPoint)
       = Some (GetStress_FEM (solver_node (solver FEA_SOL) iPoint) 4) ∧
     values store' !! ("STRESS-YZ", iPoint)
       = Some (GetStress_FEM (solver_node (solver FEA_SOL) iPoint) 5)) ∧
    (nDim this ≠ 3 →
     ∀ f, f ∈ ["STRESS-ZZ"; "STRESS-XZ"; "STRESS-YZ"] →
          values store' !! (f, iPoint) = values store !! (f, iPoint)).
Proof.
  rewrite volume_catalog_eq. intros [= Hreg].
  eexists. split.
  { apply LoadVolumeData_runs. intros f Hf. rewrite <- Hreg.
    by apply volume_writes_registered in Hf. }
  split_and!.
  1-4: apply volume_load_value; unfold volume_assignments;
       destruct (dynamic this), (nDim this =? 3); cbn [app]; in_list.
  - intros Hdim. apply Z.eqb_eq in Hdim.
    split_and!; apply volume_load_value; unfold volume_assignments; rewrite Hdim;
      destruct (dynamic this); cbn [app]; in_list.
  - intros Hdim f Hf. apply values_assign_other.
    rewrite at_point_keys, volume_assignments_names, elem_of_point_keys.
    cbn [fst snd]. rewrite volume_writes_spec.
    rewrite !elem_of_cons, elem_of_nil in Hf. naive_solver.
Qed.

End LoaderRuns.

(** A record that holds [PHYS_TIME] and [VMS] from an earlier iteration:
    [PHYS_TIME] is carried over, [VMS] is replaced. *)
Lemma LoadHistoryData_carries_over_witness :
  history_catalog (sample_object 0 2 false false)
    (sample_config 0 false false false 0 0 1) = Some (registered used_history_record) ∧
  ∃ store',
    @LoadHistoryData su2_option_structure log10_sample (sample_object 0 2 false false)
      (sample_config 0 false false false 0 0 1) (sample_geometry 2)
      (sample_solver PrimFloat.one) used_history_record = Ok (tt, store') ∧
    values store' !! "PHYS_TIME" = Some PrimFloat.one ∧
    values store' !! "VMS" = Some PrimFloat.two.
Proof.
  split; [reflexivity|].
  destruct (@LoadHistoryData_carries_over su2_option_structure log10_sample
              (sample_object 0 2 false false) (sample_config 0 false false false 0 0 1)
              (sample_geometry 2) (sample_solver PrimFloat.one) used_history_record
              eq_refl)
    as (store' & Hrun & _ & _ & Hnew & Hold).
  exists store'. split; [exact Hrun|]. split.
  - rewrite Hold; [reflexivity | compute_done].
  - apply Hnew. vm_compute. in_list.
Defined.

(** Residuals of zero first, residuals of one next. *)
Lemma LoadHistoryData_overwrites_witness :
  ∃ store1 store12 store2,
    @LoadHistoryData su2_option_structure log10_sample (sample_object 0 2 false false)
      (sample_config 0 false false false 0 0 1) (sample_geometry 2)
      (sample_solver PrimFloat.zero) used_history_record = Ok (tt, store1) ∧
    @LoadHistoryData su2_option_structure log10_sample (sample_object 0 2 false false)
      (sample_config 0 false false false 0 0 1) (sample_geometry 2)
      (sample_solver PrimFloat.one) store1 = Ok (tt, store12) ∧
    @LoadHistoryData su2_option_structure log10_sample (sample_object 0 2 false false)
      (sample_config 0 false false false 0 0 1) (sample_geometry 2)
      (sample_solver PrimFloat.one) used_history_record = Ok (tt, store2) ∧
    values store12 = values store2.
Proof.
  apply (@LoadHistoryData_overwrites su2_option_structure log10_sample
           (sample_object 0 2 false false) (sample_object 0 2 false false)
           (sample_config 0 false false false 0 0 1) (sample_geometry 2)
           (sample_solver PrimFloat.zero) (sample_solver PrimFloat.one)
           used_history_record); reflexivity.
Defined.

(** Point 7 is loaded into a record that holds a coordinate of point 3. *)
Lemma LoadVolumeData_carries_over_witness :
  volume_catalog (sample_object 0 2 false false)
    (sample_config 0 false false false 0 0 1) = Some (registered used_volume_record) ∧
  ∃ store',
    @LoadVolumeData su2_option_structure (sample_object 0 2 false false)
      (sample_config 0 false false false 0 0 1) (sample_geometry 2)
      (sample_solver PrimFloat.one) 7 used_volume_record = Ok (tt, store') ∧
    values store' !! ("COORD-X", 3) = Some PrimFloat.two ∧
    values store' !! ("COORD-X", 7) = Some PrimFloat.one.
Proof.
  split; [reflexivity|].
  destruct (@LoadVolumeData_carries_over su2_option_structure
              (sample_object 0 2 false false) (sample_config 0 false false false 0 0 1)
              (sample_geometry 2) (sample_solver PrimFloat.one) 7 used_volume_record
              eq_refl)
    as (store' & Hrun & _ & _ & Hnew & Hold).
  exists store'. split; [exact Hrun|]. split.
  - rewrite Hold; [reflexivity | left; discriminate].
  - apply Hnew. vm_compute. in_list.
Defined.

(** Points 3 and 7. *)
Lemma LoadVolumeData_points_commute_witness :
  (3 ≠ 7) ∧
  ∃ store_i store_ij store_j store_ji,
    @LoadVolumeData su2_option_structure (sample_object 0 2 false false)
      (sample_config 0 false false false 0 0 1) (sample_geometry 2)
      (sample_solver PrimFloat.one) 3 used_volume_record = Ok (tt, store_i) ∧
    @LoadVolumeData su2_option_structure (sample_object 0 2 false false)
      (sample_config 0 false false false 0 0 1) (sample_geometry 2)
      (sample_solver PrimFloat.one) 7 store_i = Ok (tt, store_ij) ∧
    @LoadVolumeData su2_option_structure (sample_object 0 2 false false)
      (sample_config 0 false false false 0 0 1) (sample_geometry 2)
      (sample_solver PrimFloat.one) 7 used_volume_record = Ok (tt, store_j) ∧
    @LoadVolumeData su2_option_structure (sample_object 0 2 false false)
      (sample_config 0 false false false 0 0 1) (sample_geometry 2)
      (sample_solver PrimFloat.one) 3 store_j = Ok (tt, store_ji) ∧
    values store_ij = values store_ji.
Proof.
  assert (3 ≠ 7) as Hne by discriminate.
  split; [exact Hne|].
  apply (@LoadVolumeData_points_commute su2_option_structure
           (sample_object 0 2 false false) (sample_config 0 false false false 0 0 1)
           (sample_geometry 2) (sample_solver PrimFloat.one) 3 7 used_volume_record
           eq_refl Hne).
Defined.

(** The summary fields of a sample solver. *)
Lemma LoadHistoryData_plain_values_witness :
  ∃ store',
    @LoadHistoryData su2_option_structure log10_sample (sample_object 0 2 false false)
      (sample_config 0 false false false 0 0 1) (sample_geometry 2)
      (sample_solver PrimFloat.one) used_history_record = Ok (tt, store') ∧
    values store' !! "VMS" = Some PrimFloat.two ∧
    values store' !! "LOAD_RAMP" = Some PrimFloat.one.
Proof.
  destruct (@LoadHistoryData_plain_values su2_option_structure log10_sample
              (sample_object 0 2 false false) (sample_config 0 false false false 0 0 1)
              (sample_geometry 2) (sample_solver PrimFloat.one) used_history_record
              eq_refl)
    as (store' & Hrun & _ & _ & _ & Hvms & _ & Hramp).
  exists store'. split; [exact Hrun|]. split; [exact Hvms | exact Hramp].
Defined.

(** A two-dimensional record: the out-of-plane stresses are not touched. *)
Lemma LoadVolumeData_stress_components_witness :
  ∃ store',
    @LoadVolumeData su2_option_structure (sample_object 0 2 false false)
      (sample_config 0 false false false 0 0 1) (sample_geometry 2)
      (sample_solver PrimFloat.one) 7 used_volume_record = Ok (tt, store') ∧
    values store' !! ("STRESS-XY", 7) = Some PrimFloat.one ∧
    values store' !! ("STRESS-ZZ", 7) = None.
Proof.
  destruct (@LoadVolumeData_stress_components su2_option_structure
              (sample_object 0 2 false false) (sample_config 0 false false false 0 0 1)
              (sample_geometry 2) (sample_solver PrimFloat.one) 7 used_volume_record
              eq_refl)
    as (store' & Hrun & _ & _ & Hxy & _ & _ & Hflat).
  exists store'. split; [exact Hrun|]. split; [exact Hxy|].
  rewrite (Hflat ltac:(discriminate) "STRESS-ZZ" ltac:(compute_done)). reflexivity.
Defined.

(** ** The catalogues and what the loaders fill *)

Lemma times_written_never {K} `{EqDecision K} (k : K) (written : list K) :
  k ∉ written → times_written k written = 0%nat.
Proof.
  unfold times_written. induction written as [|k' written IH]; intros Hout; [done|].
  apply not_elem_of_cons in Hout as [Hne Hout].
  rewrite filter_cons_False by congruence. by apply IH.
Qed.

Lemma times_written_once {K} `{EqDecision K} (k : K) (written : list K) :
  NoDup written → k ∈ written → times_written k written = 1%nat.
Proof.
  induction 1 as [|k' written Hfresh Hnodup IH]; intros Hin.
  - by apply elem_of_nil in Hin.
  - unfold times_written. destruct (decide (k' = k)) as [->|Hne].
    + rewrite filter_cons_True by done. cbn. f_equal.
      by apply times_written_never.
    + rewrite filter_cons_False by done.
      apply elem_of_cons in Hin as [->|Hin]; [done|]. by apply IH.
Qed.

Lemma volume_descriptors_Some this config :
  ∃ catalog,
    exec (SetVolumeOutputFields this config) [] = Some catalog ∧
    volume_name <$> catalog = volume_fields (nDim this =? 3).
Proof.
  unfold SetVolumeOutputFields.
  destruct (nDim this =? 3); eexists; (split; [reflexivity|]); reflexivity.
Qed.

Lemma history_descriptors_Some this config :
  ∃ catalog,
    exec (SetHistoryOutputFields this config) [] = Some catalog ∧
    history_name <$> catalog = history_fields.
Proof. eexists. split; reflexivity. Qed.

Section CatalogueAndLoader.
Context `{OptionStructure}.
Variable log10 : su2double → su2double.
Implicit Types (this : CElasticityOutput) (config : CConfig)
  (geometry : CGeometry) (solver : nat → CSolver).

(** A registered volume field is written iff the analysis is dynamic or
    the field is not one of group [VELOCITY] or [ACCELERATION]. *)
Lemma volume_descriptor_written this config geometry solver (iPoint : Z) catalog record :
  exec (SetVolumeOutputFields this config) [] = Some catalog →
  volume_point this config geometry solver iPoint = Some record →
  ∀ d, d ∈ catalog →
       (volume_name d, iPoint) ∈ journal record ↔
       dynamic this = true ∨ volume_group d ∈ ["COORDINATES"; "SOLUTION"; "STRESS"].
Proof.
  intros Hcatalog Hrecord.
  destruct (volume_point_Some this config geometry solver iPoint)
    as (record' & Hrecord' & Hpoint).
  rewrite Hrecord in Hrecord'. injection Hrecord' as <-.
  unfold SetVolumeOutputFields in Hcatalog. revert Hcatalog.
  destruct (Z.eqb_spec (nDim this) 3) as [Hdim|Hdim]; intros Hcatalog;
    vm_compute in Hcatalog; injection Hcatalog as <-;
    each_member; repeat first [ apply Forall_nil_2 | apply Forall_cons_2 ];
    cbn [volume_name volume_group];
    rewrite Hpoint, volume_writes_spec, !elem_of_cons, elem_of_nil;
    naive_solver.
Qed.

(** A registered field of group [ITER] is always written; group [RMS_RES]
    holds both residual families, and one of them at most is written. *)
Lemma history_descriptor_written this config geometry solver catalog record :
  exec (SetHistoryOutputFields this config) [] = Some catalog →
  history_iteration log10 this config geometry solver = Some record →
  (∀ d, d ∈ catalog → history_group d = "ITER" → history_name d ∈ journal record) ∧
  (∃ d, d ∈ catalog ∧ history_group d = "RMS_RES" ∧ history_name d ∉ journal record).
Proof.
  intros Hcatalog Hrecord.
  destruct (history_iteration_Some log10 this config geometry solver)
    as (record' & Hrecord' & Hjournal).
  rewrite Hrecord in Hrecord'. injection Hrecord' as <-.
  vm_compute in Hcatalog. injection Hcatalog as <-. rewrite Hjournal. split.
  - each_member. repeat first [ apply Forall_nil_2 | apply Forall_cons_2 ];
      cbn [history_name history_group]; intros Hgroup; try discriminate Hgroup;
      apply history_writes_spec; naive_solver.
  - destruct (linear_analysis this) eqn:Hlin.
    + exists {| history_name := "RMS_UTOL"; history_label := "rms[U]";
                history_format := FORMAT_FIXED; history_group := "RMS_RES";
                history_kind := TYPE_RESIDUAL |}.
      split; [in_list|]. split; [done|]. cbn [history_name].
      rewrite history_writes_spec, Hlin. naive_solver.
    + exists {| history_name := "RMS_DISP_X"; history_label := "rms[DispX]";
                history_format := FORMAT_FIXED; history_group := "RMS_RES";
                history_kind := TYPE_RESIDUAL |}.
      split; [in_list|]. split; [done|]. cbn [history_name].
      rewrite history_writes_spec, Hlin. naive_solver.
Qed.

(** X7. For every configuration and point, every key [LoadVolumeData]
    writes is a registered field at that point and is written exactly
    once; a registered field is written iff the analysis is dynamic or the
    group of the field is [COORDINATES], [SOLUTION] or [STRESS]. So a
    dynamic analysis fills every field of its volume catalogue, and a
    static one every field but those of groups [VELOCITY] and
    [ACCELERATION]. *)
Theorem LoadVolumeData_fills_catalog this config geometry solver (iPoint : Z) :
  ∃ catalog record,
    exec (SetVolumeOutputFields this config) [] = Some catalog ∧
    volume_point this config geometry solver iPoint = Some record ∧
    (∀ k, k ∈ journal record →
          k.2 = iPoint ∧ k.1 ∈ volume_name <$> catalog ∧
          times_written k (journal record) = 1%nat) ∧
    (∀ d, d ∈ catalog →
          (volume_name d, iPoint) ∈ journal record ↔
          dynamic this = true ∨
          volume_group d ∈ ["COORDINATES"; "SOLUTION"; "STRESS"]).
Proof.
  destruct (volume_descriptors_Some this config) as (catalog & Hcatalog & Hnames).
  pose proof (volume_point_journal this config geometry solver iPoint) as Hjournal.
  apply fmap_Some in Hjournal as (record & Hrecord & Hjournal).
  exists catalog, record. split; [done|]. split; [done|]. split.
  - intros k Hk. rewrite <- Hjournal in Hk |- *.
    pose proof Hk as Hk'. apply elem_of_point_keys in Hk' as [Hpoint Hname].
    split; [done|]. split.
    + rewrite Hnames. by apply volume_writes_registered.
    + apply times_written_once; [|done].
      apply point_keys_NoDup, volume_writes_NoDup.
  - by apply (volume_descriptor_written this config geometry solver).
Qed.

(** The history record of an iteration is the fresh record with the
    loader's assignments made in order. *)
Lemma history_iteration_assign this config geometry solver :
  history_iteration log10 this config geometry solver
  = Some (assign (history_assignments log10 this (solver FEA_SOL))
            (new_record history_fields)).
Proof.
  unfold history_iteration. rewrite history_catalog_eq. cbn [mbind option_bind].
  unfold exec. rewrite (LoadHistoryData_runs log10 this config geometry solver); [done|].
  intros f Hf. by apply (history_writes_registered this).
Qed.

(** X8. The tag of a history field and what [LoadHistoryData] does with it
    agree. A registered field is of kind residual iff its group is
    [RMS_RES] or [BGS_RES], and is then of fixed-point format. Whenever the
    loader writes a registered field, the value it leaves there is [log10]
    of a component 0, 1 or 2 of [GetRes_RMS], [GetRes_FEM] or [GetRes_BGS]
    if the field is of kind residual, and one of the iteration counters or
    of the solver's summary values, as read, if it is of the default
    kind. *)
Theorem residual_kind_is_logarithm this config geometry solver :
  ∃ catalog record,
    exec (SetHistoryOutputFields this config) [] = Some catalog ∧
    history_iteration log10 this config geometry solver = Some record ∧
    ∀ d, d ∈ catalog →
         (history_kind d = TYPE_RESIDUAL ↔
          history_group d = "RMS_RES" ∨ history_group d = "BGS_RES") ∧
         (history_kind d = TYPE_RESIDUAL → history_format d = FORMAT_FIXED) ∧
         (history_name d ∈ journal record →
          ∃ v, values record !! history_name d = Some v ∧
               (history_kind d = TYPE_RESIDUAL →
                ∃ i, 0 ≤ i < 3 ∧
                     (v = log10 (GetRes_RMS (solver FEA_SOL) i) ∨
                      v = log10 (GetRes_FEM (solver FEA_SOL) i) ∨
                      v = log10 (GetRes_BGS (solver FEA_SOL) i))) ∧
               (history_kind d = TYPE_DEFAULT →
                v ∈ [su2double_of_Z (curr_TimeIter this);
                     su2double_of_Z (curr_InnerIter this);
                     su2double_of_Z (curr_OuterIter this);
                     GetTotal_CFEA (solver FEA_SOL);
                     GetLoad_Increment (solver FEA_SOL);
                     GetForceCoeff (solver FEA_SOL)])).
Proof.
  destruct (history_descriptors_Some this config) as (catalog & Hcatalog & _).
  exists catalog, (assign (history_assignments log10 this (solver FEA_SOL))
                     (new_record history_fields)).
  split; [done|]. split; [apply history_iteration_assign|].
  vm_compute in Hcatalog. injection Hcatalog as <-.
  rewrite journal_assign, history_assignments_names. cbn [journal new_record app].
  unfold history_writes, history_assignments.
  generalize (solver FEA_SOL). intros fea_solver.
  destruct (linear_analysis this), (nonlinear_analysis this), (multizone this),
    (nDim this =? 3); cbn [app];
    each_member;
    repeat first [ apply Forall_nil_2 | apply Forall_cons_2 ];
    cbn [history_name history_group history_kind history_format];
    (split; [split; [intros Hkind; try discriminate Hkind; eauto
                    |intros [Hgroup|Hgroup]; first [ done | discriminate Hgroup ]]
            |split; [intros Hkind; first [ done | discriminate Hkind ]|]]);
    intros Hin;
    first
      [ exfalso; revert Hin; compute_done
      | eexists; split;
        [ apply values_assign_once; [compute_done | in_list]
        | split; intros Hkind; try discriminate Hkind;
          first [ solve [in_list]
                | solve [ exists 0; split; [lia|]; eauto
                        | exists 1; split; [lia|]; eauto
                        | exists 2; split; [lia|]; eauto ] ] ] ].
Qed.

End CatalogueAndLoader.

(** A static analysis in two dimensions, at point 7. *)
Lemma LoadVolumeData_fills_catalog_witness :
  ∃ catalog record,
    exec (SetVolumeOutputFields (sample_object 0 2 false false)
            (sample_config 0 false false false 0 0 1)) [] = Some catalog ∧
    @volume_point su2_option_structure (sample_object 0 2 false false)
      (sample_config 0 false false false 0 0 1) (sample_geometry 2)
      (sample_solver PrimFloat.one) 7 = Some record ∧
    ("STRESS-XY", 7) ∈ journal record ∧
    times_written ("STRESS-XY", 7) (journal record) = 1%nat.
Proof.
  destruct (@LoadVolumeData_fills_catalog su2_option_structure
              (sample_object 0 2 false false) (sample_config 0 false false false 0 0 1)
              (sample_geometry 2) (sample_solver PrimFloat.one) 7)
    as (catalog & record & Hcatalog & Hrecord & Honce & Hwhich).
  exists catalog, record. split; [exact Hcatalog|]. split; [exact Hrecord|].
  assert (("STRESS-XY", 7) ∈ journal record) as Hin.
  { apply (Hwhich {| volume_name := "STRESS-XY"; volume_label := "Sxy";
                     volume_group := "STRESS" |}).
    - vm_compute in Hcatalog. injection Hcatalog as <-. in_list.
    - right. compute_done. }
  split; [exact Hin | apply (Honce _ Hin)].
Defined.

(** [RMS_UTOL] in a nonlinear analysis whose residuals are all one. *)
Lemma residual_kind_is_logarithm_witness :
  ∃ catalog record,
    exec (SetHistoryOutputFields (sample_object 1 2 false false)
            (sample_config 1 false false false 0 0 1)) [] = Some catalog ∧
    @history_iteration su2_option_structure log10_sample (sample_object 1 2 false false)
      (sample_config 1 false false false 0 0 1) (sample_geometry 2)
      (sample_solver PrimFloat.one) = Some record ∧
    ∃ v, values record !! "RMS_UTOL" = Some v ∧
         ∃ i, 0 ≤ i < 3 ∧
              (v = log10_sample (GetRes_RMS (sample_solver PrimFloat.one 0%nat) i) ∨
               v = log10_sample (GetRes_FEM (sample_solver PrimFloat.one 0%nat) i) ∨
               v = log10_sample (GetRes_BGS (sample_solver PrimFloat.one 0%nat) i)).
Proof.
  destruct (@residual_kind_is_logarithm su2_option_structure log10_sample
              (sample_object 1 2 false false) (sample_config 1 false false false 0 0 1)
              (sample_geometry 2) (sample_solver PrimFloat.one))
    as (catalog & record & Hcatalog & Hrecord & Hall).
  exists catalog, record. split; [exact Hcatalog|]. split; [exact Hrecord|].
  assert ("RMS_UTOL" ∈ journal record) as Hin.
  { destruct (@history_iteration_Some su2_option_structure log10_sample
                (sample_object 1 2 false false) (sample_config 1 false false false 0 0 1)
                (sample_geometry 2) (sample_solver PrimFloat.one))
      as (record' & Hrecord' & Hjournal).
    rewrite Hrecord in Hrecord'. injection Hrecord' as <-.
    rewrite Hjournal. compute_done. }
  assert ({| history_name := "RMS_UTOL"; history_label := "rms[U]";
             history_format := FORMAT_FIXED; history_group := "RMS_RES";
             history_kind := TYPE_RESIDUAL |} ∈ catalog) as Hd.
  { vm_compute in Hcatalog. injection Hcatalog as <-. in_list. }
  destruct (Hall _ Hd) as (_ & _ & Hvalue).
  destruct (Hvalue Hin) as (v & Hv & Hresidual & _).
  exists v. split; [exact Hv | exact (Hresidual eq_refl)].
Defined.

(** X9. Field identifiers are unique within each catalogue. *)
Theorem catalog_ids_unique (this : CElasticityOutput) (config : CConfig) :
  ∃ history volume,
    history_catalog this config = Some history ∧
    volume_catalog this config = Some volume ∧
    NoDup history ∧ NoDup volume.
Proof.
  exists history_fields, (volume_fields (nDim this =? 3)).
  split; [apply history_catalog_eq|]. split; [apply volume_catalog_eq|].
  split; [compute_done|]. destruct (nDim this =? 3); compute_done.
Qed.

(** X10. Every dimension other than 3 gives one and the same volume
    catalogue, and the catalogue of dimension 3 is that catalogue with
    exactly the seven out-of-plane volume fields inserted: the remaining
    fields keep their relative order, and each of the seven is in the
    catalogue of dimension 3 and in no other. *)
Theorem volume_catalog_grows_with_dimension
    (flat flat' solid : CElasticityOutput) (config config' config'' : CConfig) :
  nDim flat ≠ 3 → nDim flat' ≠ 3 → nDim solid = 3 →
  ∃ volume2 volume3,
    volume_catalog flat config = Some volume2 ∧
    volume_catalog flat' config' = Some volume2 ∧
    volume_catalog solid config'' = Some volume3 ∧
    volume2 `sublist_of` volume3 ∧
    (∀ f, f ∈ volume3 → f ∈ volume2 ∨ f ∈ z_axis_fields) ∧
    (∀ f, f ∈ ["COORD-Z"; "DISPLACEMENT-Z"; "VELOCITY-Z"; "ACCELERATION-Z";
               "STRESS-ZZ"; "STRESS-XZ"; "STRESS-YZ"] →
          f ∈ volume3 ∧ f ∉ volume2) ∧
    length volume3 = (length volume2 + 7)%nat.
Proof.
  intros Hflat Hflat' Hsolid.
  exists (volume_fields false), (volume_fields true).
  split; [rewrite volume_catalog_eq; by apply Z.eqb_neq in Hflat as ->|].
  split; [rewrite volume_catalog_eq; by apply Z.eqb_neq in Hflat' as ->|].
  split; [by rewrite volume_catalog_eq, Hsolid|].
  split_and!.
  - cbn. repeat first [ apply sublist_nil | apply sublist_skip | apply sublist_cons ].
  - each_member. compute_done.
  - each_member. compute_done.
  - reflexivity.
Qed.

(** Dimensions 2 and 1 against dimension 3. *)
Lemma volume_catalog_grows_with_dimension_witness :
  nDim (sample_object 0 2 false false) ≠ 3 ∧
  nDim (sample_object 1 1 true false) ≠ 3 ∧
  nDim (sample_object 0 3 false false) = 3 ∧
  ∃ volume2 volume3,
    volume_catalog (sample_object 0 2 false false)
      (sample_config 0 false false false 0 0 1) = Some volume2 ∧
    volume_catalog (sample_object 1 1 true false)
      (sample_config 1 true false false 0 0 1) = Some volume2 ∧
    volume_catalog (sample_object 0 3 false false)
      (sample_config 0 false false false 0 0 1) = Some volume3 ∧
    volume2 `sublist_of` volume3 ∧
    "STRESS-XZ" ∈ volume3 ∧ ("STRESS-XZ" ∉ volume2).
Proof.
  assert (nDim (sample_object 0 2 false false) ≠ 3) as Hflat by discriminate.
  assert (nDim (sample_object 1 1 true false) ≠ 3) as Hflat' by discriminate.
  split; [exact Hflat|]. split; [exact Hflat'|]. split; [reflexivity|].
  destruct (volume_catalog_grows_with_dimension
              (sample_object 0 2 false false) (sample_object 1 1 true false)
              (sample_object 0 3 false false)
              (sample_config 0 false false false 0 0 1)
              (sample_config 1 true false false 0 0 1)
              (sample_config 0 false false false 0 0 1) Hflat Hflat' eq_refl)
    as (volume2 & volume3 & H2 & H2' & H3 & Hsub & _ & Hz & _).
  exists volume2, volume3. split; [exact H2|]. split; [exact H2'|].
  split; [exact H3|]. split; [exact Hsub|].
  apply (Hz "STRESS-XZ"). compute_done.
Defined.

(** ** The constructor's defaults *)

Lemma string_app_cons a (s t : string) : String a s +:+ t = String a (s +:+ t).
Proof. reflexivity. Qed.

Lemma string_app_length (s t : string) :
  String.length (s +:+ t) = (String.length s + String.length t)%nat.
Proof. induction s as [|a s IH]; [done|]. rewrite string_app_cons. cbn. by rewrite IH. Qed.

(** Appending the same suffix to different strings gives different
    strings. *)
Lemma string_app_inj_r (s1 s2 t : string) : s1 +:+ t = s2 +:+ t → s1 = s2.
Proof.
  revert s2. induction s1 as [|a s1 IH]; intros [|b s2] Heq; [done| | |].
  - apply (f_equal String.length) in Heq.
    rewrite !string_app_length in Heq. cbn in Heq. lia.
  - apply (f_equal String.length) in Heq.
    rewrite !string_app_length in Heq. cbn in Heq. lia.
  - rewrite !string_app_cons in Heq. injection Heq as -> Heq.
    f_equal. by apply IH.
Qed.

Section ConstructorDefaults.
Context `{OptionStructure}.
Variable log10 : su2double → su2double.
Implicit Types (base : COutput) (config : CConfig) (geometry : CGeometry)
  (solver : nat → CSolver).

Lemma ctor_not_both base config geometry (val_iZone : Z) :
  ¬ (linear_analysis (CElasticityOutput_ctor base config geometry val_iZone) = true ∧
     nonlinear_analysis (CElasticityOutput_ctor base config geometry val_iZone) = true).
Proof.
  cbn. intros [Hsmall%Z.eqb_eq Hlarge%Z.eqb_eq].
  apply deformations_distinct. congruence.
Qed.

(** X11. The constructor sets [linear_analysis] exactly for
    [SMALL_DEFORMATIONS] and [nonlinear_analysis] exactly for
    [LARGE_DEFORMATIONS], never both; [nVar_FEM] becomes the dimension in
    the first case and 3 in the second, and is left unassigned exactly when
    the regime is neither. *)
Theorem ctor_regime_flags base config geometry (val_iZone : Z) :
  (linear_analysis (CElasticityOutput_ctor base config geometry val_iZone) = true ↔
   GetGeometricConditions config = SMALL_DEFORMATIONS) ∧
  (nonlinear_analysis (CElasticityOutput_ctor base config geometry val_iZone) = true ↔
   GetGeometricConditions config = LARGE_DEFORMATIONS) ∧
  ¬ (linear_analysis (CElasticityOutput_ctor base config geometry val_iZone) = true ∧
     nonlinear_analysis (CElasticityOutput_ctor base config geometry val_iZone) = true) ∧
  (GetGeometricConditions config = SMALL_DEFORMATIONS →
   nVar_FEM (CElasticityOutput_ctor base config geometry val_iZone)
   = Some (GetnDim geometry)) ∧
  (GetGeometricConditions config = LARGE_DEFORMATIONS →
   nVar_FEM (CElasticityOutput_ctor base config geometry val_iZone) = Some 3) ∧
  (nVar_FEM (CElasticityOutput_ctor base config geometry val_iZone) = None ↔
   GetGeometricConditions config ≠ SMALL_DEFORMATIONS ∧
   GetGeometricConditions config ≠ LARGE_DEFORMATIONS).
Proof.
  pose proof deformations_distinct as Hdistinct. cbn.
  destruct (Z.eqb_spec (GetGeometricConditions config) SMALL_DEFORMATIONS) as [Hs|Hs],
    (Z.eqb_spec (GetGeometricConditions config) LARGE_DEFORMATIONS) as [Hl|Hl];
    split_and!; try done; try congruence; naive_solver.
Qed.

(** X12. After construction none of the three request counts is zero. A
    count that was not zero is left alone together with its list; a count
    of zero is replaced by the size of the list after the defaults were
    appended, so that a count that agreed with its list still does. *)
Theorem ctor_request_counts base config geometry (val_iZone : Z) :
  (nRequestedHistoryFields (CElasticityOutput_ctor base config geometry val_iZone) ≠ 0 ∧
   nRequestedScreenFields (CElasticityOutput_ctor base config geometry val_iZone) ≠ 0 ∧
   nRequestedVolumeFields (CElasticityOutput_ctor base config geometry val_iZone) ≠ 0) ∧
  (nRequestedHistoryFields base ≠ 0 →
   RequestedHistoryFields (CElasticityOutput_ctor base config geometry val_iZone)
   = RequestedHistoryFields base) ∧
  (nRequestedScreenFields base ≠ 0 →
   RequestedScreenFields (CElasticityOutput_ctor base config geometry val_iZone)
   = RequestedScreenFields base) ∧
  (nRequestedVolumeFields base ≠ 0 →
   RequestedVolumeFields (CElasticityOutput_ctor base config geometry val_iZone)
   = RequestedVolumeFields base) ∧
  (nRequestedHistoryFields base = size_of (RequestedHistoryFields base) →
   nRequestedHistoryFields (CElasticityOutput_ctor base config geometry val_iZone)
   = size_of (RequestedHistoryFields
                (CElasticityOutput_ctor base config geometry val_iZone))) ∧
  (nRequestedScreenFields base = size_of (RequestedScreenFields base) →
   nRequestedScreenFields (CElasticityOutput_ctor base config geometry val_iZone)
   = size_of (RequestedScreenFields
                (CElasticityOutput_ctor base config geometry val_iZone))) ∧
  (nRequestedVolumeFields base = size_of (RequestedVolumeFields base) →
   nRequestedVolumeFields (CElasticityOutput_ctor base config geometry val_iZone)
   = size_of (RequestedVolumeFields
                (CElasticityOutput_ctor base config geometry val_iZone))).
Proof.
  cbn.
  destruct (Z.eqb_spec (nRequestedHistoryFields base) 0),
    (Z.eqb_spec (nRequestedScreenFields base) 0),
    (Z.eqb_spec (nRequestedVolumeFields base) 0);
    split_and!; try done;
    unfold size_of, push_back; rewrite ?length_app; cbn [length]; lia.
Qed.

(** The default screen fields, by the flags of the constructed object. *)
Lemma ctor_screen_defaults base config geometry (val_iZone : Z) :
  nRequestedScreenFields base = 0 →
  RequestedScreenFields base = [] →
  RequestedScreenFields (CElasticityOutput_ctor base config geometry val_iZone)
  = ((if dynamic (CElasticityOutput_ctor base config geometry val_iZone)
      then ["TIME_ITER"] else [])
     ++ (if multizone base then ["OUTER_ITER"] else [])
     ++ ["INNER_ITER"]
     ++ (if linear_analysis (CElasticityOutput_ctor base config geometry val_iZone)
         then ["RMS_DISP_X"; "RMS_DISP_Y"; "RMS_DISP_Z"] else [])
     ++ (if nonlinear_analysis (CElasticityOutput_ctor base config geometry val_iZone)
         then ["RMS_UTOL"; "RMS_RTOL"; "RMS_ETOL"] else [])
     ++ ["VMS"])%list.
Proof.
  intros Hcount Hlist. cbn. rewrite Hcount, Hlist. cbn.
  by destruct (GetTime_Domain config || (GetDynamic_Analysis config =? DYNAMIC)),
    (multizone base), (GetGeometricConditions config =? SMALL_DEFORMATIONS),
    (GetGeometricConditions config =? LARGE_DEFORMATIONS).
Qed.

(** X13. When no screen field is requested, every default screen field is
    a field of the history catalogue; [TIME_ITER] is among them iff the
    analysis is dynamic and [OUTER_ITER] iff it is multizone. The loader
    fills every one of them but the third residual ([RMS_DISP_Z],
    [RMS_ETOL]), which is on the default screen in every dimension and is
    written in dimension 3 only. *)
Theorem default_screen_fields base config geometry (val_iZone : Z) solver :
  nRequestedScreenFields base = 0 →
  RequestedScreenFields base = [] →
  ∃ ids record,
    history_catalog (CElasticityOutput_ctor base config geometry val_iZone) config
      = Some ids ∧
    history_iteration log10 (CElasticityOutput_ctor base config geometry val_iZone)
      config geometry solver = Some record ∧
    (∀ f, f ∈ RequestedScreenFields
                (CElasticityOutput_ctor base config geometry val_iZone) →
          f ∈ ids ∧
          (f ∈ journal record ↔
           ¬ (GetnDim geometry ≠ 3 ∧ (f = "RMS_DISP_Z" ∨ f = "RMS_ETOL")))) ∧
    ("TIME_ITER" ∈ RequestedScreenFields
                     (CElasticityOutput_ctor base config geometry val_iZone) ↔
     dynamic (CElasticityOutput_ctor base config geometry val_iZone) = true) ∧
    ("OUTER_ITER" ∈ RequestedScreenFields
                      (CElasticityOutput_ctor base config geometry val_iZone) ↔
     multizone base = true).
Proof.
  intros Hcount Hlist.
  destruct (history_iteration_Some log10
              (CElasticityOutput_ctor base config geometry val_iZone)
              config geometry solver) as (record & Hrecord & Hjournal).
  exists history_fields, record.
  split; [apply history_catalog_eq|]. split; [done|].
  rewrite (ctor_screen_defaults _ _ _ _ Hcount Hlist), Hjournal.
  pose proof (ctor_not_both base config geometry val_iZone) as Hboth.
  unfold history_writes. rewrite ctor_nDim, ctor_multizone.
  destruct (dynamic (CElasticityOutput_ctor base config geometry val_iZone)),
    (multizone base),
    (linear_analysis (CElasticityOutput_ctor base config geometry val_iZone)),
    (nonlinear_analysis (CElasticityOutput_ctor base config geometry val_iZone)),
    (Z.eqb_spec (GetnDim geometry) 3) as [Hdim|Hdim];
    try (exfalso; by apply Hboth); cbn [app]; split_and!.
  all: try (split; intros Hin;
            first [ done | compute_done | exfalso; revert Hin; compute_done ]).
  all: each_member; repeat first [ apply Forall_nil_2 | apply Forall_cons_2 ];
    (split; [compute_done|]); split.
  all: first
    [ intros Hin [Hflat Hthird];
      first [ done | by destruct Hthird | exfalso; revert Hin; compute_done ]
    | intros Hnot;
      first [ compute_done | exfalso; apply Hnot; split; [done | eauto] ] ].
Qed.

(** X14. When no history field is requested, the defaults are the groups
    [ITER] and [RMS_RES], and each is the group of a registered field.
    Every field of group [ITER] is filled by the loader. Group [RMS_RES]
    holds both residual families, so for every configuration it has a
    registered field that the loader does not fill. *)
Theorem default_history_request base config geometry (val_iZone : Z) solver :
  nRequestedHistoryFields base = 0 →
  RequestedHistoryFields base = [] →
  ∃ catalog record,
    exec (SetHistoryOutputFields
            (CElasticityOutput_ctor base config geometry val_iZone) config) []
      = Some catalog ∧
    history_iteration log10 (CElasticityOutput_ctor base config geometry val_iZone)
      config geometry solver = Some record ∧
    RequestedHistoryFields (CElasticityOutput_ctor base config geometry val_iZone)
      = ["ITER"; "RMS_RES"] ∧
    (∀ g, g ∈ RequestedHistoryFields
                (CElasticityOutput_ctor base config geometry val_iZone) →
          ∃ d, d ∈ catalog ∧ history_group d = g) ∧
    (∀ d, d ∈ catalog → history_group d = "ITER" → history_name d ∈ journal record) ∧
    (∃ d, d ∈ catalog ∧ history_group d = "RMS_RES" ∧ history_name d ∉ journal record).
Proof.
  intros Hcount Hlist.
  destruct (history_descriptors_Some
              (CElasticityOutput_ctor base config geometry val_iZone) config)
    as (catalog & Hcatalog & _).
  destruct (history_iteration_Some log10
              (CElasticityOutput_ctor base config geometry val_iZone)
              config geometry solver) as (record & Hrecord & _).
  destruct (history_descriptor_written log10 _ _ _ _ _ _ Hcatalog Hrecord)
    as [Hiter Hres].
  exists catalog, record. split; [done|]. split; [done|].
  assert (RequestedHistoryFields (CElasticityOutput_ctor base config geometry val_iZone)
          = ["ITER"; "RMS_RES"]) as Hdefault.
  { cbn. by rewrite Hcount, Hlist. }
  split; [done|]. split; [|by split].
  rewrite Hdefault. vm_compute in Hcatalog. injection Hcatalog as <-.
  each_member. repeat first [ apply Forall_nil_2 | apply Forall_cons_2 ].
  - exists {| history_name := "TIME_ITER"; history_label := "Time_Iter";
              history_format := FORMAT_INTEGER; history_group := "ITER";
              history_kind := TYPE_DEFAULT |}.
    split; [in_list | done].
  - exists {| history_name := "RMS_UTOL"; history_label := "rms[U]";
              history_format := FORMAT_FIXED; history_group := "RMS_RES";
              history_kind := TYPE_RESIDUAL |}.
    split; [in_list | done].
Qed.

(** X15. When no volume field is requested, the defaults are the groups
    [COORDINATES], [SOLUTION] and [STRESS]; each is the group of a
    registered field, and every registered field of these groups is filled
    by the loader at every point, in every configuration. *)
Theorem default_volume_request base config geometry (val_iZone : Z) solver (iPoint : Z) :
  nRequestedVolumeFields base = 0 →
  RequestedVolumeFields base = [] →
  ∃ catalog record,
    exec (SetVolumeOutputFields
            (CElasticityOutput_ctor base config geometry val_iZone) config) []
      = Some catalog ∧
    volume_point (CElasticityOutput_ctor base config geometry val_iZone)
      config geometry solver iPoint = Some record ∧
    RequestedVolumeFields (CElasticityOutput_ctor base config geometry val_iZone)
      = ["COORDINATES"; "SOLUTION"; "STRESS"] ∧
    (∀ g, g ∈ RequestedVolumeFields
                (CElasticityOutput_ctor base config geometry val_iZone) →
          ∃ d, d ∈ catalog ∧ volume_group d = g) ∧
    (∀ d, d ∈ catalog →
          volume_group d ∈ RequestedVolumeFields
                             (CElasticityOutput_ctor base config geometry val_iZone) →
          (volume_name d, iPoint) ∈ journal record).
Proof.
  intros Hcount Hlist.
  destruct (volume_descriptors_Some
              (CElasticityOutput_ctor base config geometry val_iZone) config)
    as (catalog & Hcatalog & _).
  destruct (volume_point_Some
              (CElasticityOutput_ctor base config geometry val_iZone)
              config geometry solver iPoint) as (record & Hrecord & _).
  pose proof (volume_descriptor_written _ _ _ _ _ _ _ Hcatalog Hrecord) as Hwritten.
  exists catalog, record. split; [done|]. split; [done|].
  assert (RequestedVolumeFields (CElasticityOutput_ctor base config geometry val_iZone)
          = ["COORDINATES"; "SOLUTION"; "STRESS"]) as Hdefault.
  { cbn. by rewrite Hcount, Hlist. }
  split; [done|]. rewrite Hdefault. split.
  - unfold SetVolumeOutputFields in Hcatalog. revert Hcatalog.
    destruct (nDim (CElasticityOutput_ctor base config geometry val_iZone) =? 3);
      intros Hcatalog; vm_compute in Hcatalog; injection Hcatalog as <-;
      each_member; repeat first [ apply Forall_nil_2 | apply Forall_cons_2 ].
    all: first
      [ exists {| volume_name := "COORD-X"; volume_label := "x";
                  volume_group := "COORDINATES" |}; split; [in_list | done]
      | exists {| volume_name := "DISPLACEMENT-X"; volume_label := "Displacement_x";
                  volume_group := "SOLUTION" |}; split; [in_list | done]
      | exists {| volume_name := "STRESS-XX"; volume_label := "Sxx";
                  volume_group := "STRESS" |}; split; [in_list | done] ].
  - intros d Hd Hgroup. apply (Hwritten d Hd). by right.
Qed.

(** X16. The zone header names the zone of the configuration: two objects
    have the same header iff their configurations have the same zone
    index, whatever the zone argument of the constructor. *)
Theorem zone_header_names_zone
    base base' config config' geometry geometry' (val_iZone val_iZone' : Z) :
  MultiZoneHeaderString (CElasticityOutput_ctor base config geometry val_iZone)
  = MultiZoneHeaderString (CElasticityOutput_ctor base' config' geometry' val_iZone') ↔
  GetiZone config = GetiZone config'.
Proof.
  cbn. split; [|by intros ->].
  intros Heq. apply (inj (String.app "Zone ")) in Heq.
  apply string_app_inj_r in Heq. by apply (inj pretty) in Heq.
Qed.

End ConstructorDefaults.

(** A linear analysis in two dimensions. *)
Lemma ctor_regime_flags_witness :
  linear_analysis (sample_object 0 2 false false) = true ∧
  nVar_FEM (sample_object 0 2 false false) = Some 2.
Proof.
  destruct (@ctor_regime_flags su2_option_structure (fresh_output false)
              (sample_config 0 false false false 0 0 1) (sample_geometry 2) 0)
    as (Hlin & _ & _ & Hnvar & _).
  split; [apply Hlin; reflexivity | apply Hnvar; reflexivity].
Defined.

(** A base object with no request at all. *)
Lemma ctor_request_counts_witness :
  nRequestedScreenFields (sample_object 0 2 false false) ≠ 0 ∧
  nRequestedScreenFields (sample_object 0 2 false false)
  = size_of (RequestedScreenFields (sample_object 0 2 false false)).
Proof.
  destruct (@ctor_request_counts su2_option_structure (fresh_output false)
              (sample_config 0 false false false 0 0 1) (sample_geometry 2) 0)
    as ((_ & Hscreen & _) & _ & _ & _ & _ & Hsize & _).
  split; [exact Hscreen | apply Hsize; reflexivity].
Defined.

(** A linear analysis in two dimensions: [RMS_DISP_Z] is on the default
    screen, is registered, and is not written. *)
Lemma default_screen_fields_witness :
  ∃ ids record,
    history_catalog (sample_object 0 2 false false)
      (sample_config 0 false false false 0 0 1) = Some ids ∧
    @history_iteration su2_option_structure log10_sample (sample_object 0 2 false false)
      (sample_config 0 false false false 0 0 1) (sample_geometry 2)
      (sample_solver PrimFloat.one) = Some record ∧
    "RMS_DISP_Z" ∈ RequestedScreenFields (sample_object 0 2 false false) ∧
    "RMS_DISP_Z" ∈ ids ∧ "RMS_DISP_Z" ∉ journal record.
Proof.
  destruct (@default_screen_fields su2_option_structure log10_sample
              (fresh_output false) (sample_config 0 false false false 0 0 1)
              (sample_geometry 2) 0 (sample_solver PrimFloat.one) eq_refl eq_refl)
    as (ids & record & Hids & Hrecord & Hall & _).
  exists ids, record. split; [exact Hids|]. split; [exact Hrecord|].
  assert ("RMS_DISP_Z" ∈ RequestedScreenFields (sample_object 0 2 false false))
    as Hscreen by compute_done.
  split; [exact Hscreen|].
  destruct (Hall "RMS_DISP_Z" Hscreen) as [Hreg Hwritten].
  split; [exact Hreg|].
  intros Hin. apply Hwritten in Hin. apply Hin. split; [discriminate | by left].
Defined.

(** A base object with no request at all. *)
Lemma default_history_request_witness :
  ∃ catalog record,
    exec (SetHistoryOutputFields (sample_object 0 2 false false)
            (sample_config 0 false false false 0 0 1)) [] = Some catalog ∧
    @history_iteration su2_option_structure log10_sample (sample_object 0 2 false false)
      (sample_config 0 false false false 0 0 1) (sample_geometry 2)
      (sample_solver PrimFloat.one) = Some record ∧
    RequestedHistoryFields (sample_object 0 2 false false) = ["ITER"; "RMS_RES"] ∧
    ∃ d, d ∈ catalog ∧ history_group d = "RMS_RES" ∧ history_name d ∉ journal record.
Proof.
  destruct (@default_history_request su2_option_structure log10_sample
              (fresh_output false) (sample_config 0 false false false 0 0 1)
              (sample_geometry 2) 0 (sample_solver PrimFloat.one) eq_refl eq_refl)
    as (catalog & record & Hcatalog & Hrecord & Hdefault & _ & _ & Hres).
  exists catalog, record. split; [exact Hcatalog|]. split; [exact Hrecord|].
  split; [exact Hdefault | exact Hres].
Defined.

(** A base object with no request at all, at point 7. *)
Lemma default_volume_request_witness :
  ∃ catalog record,
    exec (SetVolumeOutputFields (sample_object 0 2 false false)
            (sample_config 0 false false false 0 0 1)) [] = Some catalog ∧
    @volume_point su2_option_structure (sample_object 0 2 false false)
      (sample_config 0 false false false 0 0 1) (sample_geometry 2)
      (sample_solver PrimFloat.one) 7 = Some record ∧
    RequestedVolumeFields (sample_object 0 2 false false)
      = ["COORDINATES"; "SOLUTION"; "STRESS"] ∧
    ("DISPLACEMENT-Y", 7) ∈ journal record.
Proof.
  destruct (@default_volume_request su2_option_structure
              (fresh_output false) (sample_config 0 false false false 0 0 1)
              (sample_geometry 2) 0 (sample_solver PrimFloat.one) 7 eq_refl eq_refl)
    as (catalog & record & Hcatalog & Hrecord & Hdefault & _ & Hloaded).
  exists catalog, record. split; [exact Hcatalog|]. split; [exact Hrecord|].
  split; [exact Hdefault|].
  apply (Hloaded {| volume_name := "DISPLACEMENT-Y"; volume_label := "Displacement_y";
                    volume_group := "SOLUTION" |}).
  - vm_compute in Hcatalog. injection Hcatalog as <-. in_list.
  - compute_done.
Defined.

(** ** The write gate *)

(** X17. A header is never due on an iteration whose screen row is
    suppressed. *)
Theorem header_implies_row
    (ulong_modulus : Z) (this : CElasticityOutput) (config : CConfig) :
  WriteScreen_Header ulong_modulus this config = Some true →
  WriteScreen_Output this config = true.
Proof.
  unfold WriteScreen_Header. rewrite WriteScreen_Output_eq.
  destruct (GetMultizone_Problem config); [|done].
  destruct (GetWrt_ZoneConv config); [done|].
  destruct (nonlinear_analysis this); cbn.
  - rewrite andb_false_r. by intros [=].
  - destruct (_ =? 0); cbn; [done|]. rewrite andb_false_r. by intros [=].
Qed.

(** A linear analysis at external iteration 80 with a write frequency of 2. *)
Lemma header_implies_row_witness :
  WriteScreen_Header (2 ^ 64) (sample_object 0 2 false false)
    (sample_config 0 false false false 0 80 2) = Some true ∧
  WriteScreen_Output (sample_object 0 2 false false)
    (sample_config 0 false false false 0 80 2) = true.
Proof.
  assert (WriteScreen_Header (2 ^ 64) (sample_object 0 2 false false)
            (sample_config 0 false false false 0 80 2) = Some true)
    as Hheader by reflexivity.
  split; [exact Hheader|].
  exact (header_implies_row (2 ^ 64) (sample_object 0 2 false false)
           (sample_config 0 false false false 0 80 2) Hheader).
Defined.

(** X18. In an analysis that is not nonlinear, with a write frequency
    whose product with 40 is positive and representable, the header
    decision is periodic in the external iteration with period 40 times
    the write frequency, and at every multiple of the period, iteration 0
    among them, it is the multizone gate alone. *)
Theorem header_period
    (ulong_modulus : Z) (this : CElasticityOutput) (config : CConfig) :
  nonlinear_analysis this = false →
  0 < GetWrt_Con_Freq config * 40 < ulong_modulus →
  (∀ k, GetExtIter config = k * (GetWrt_Con_Freq config * 40) →
        WriteScreen_Header ulong_modulus this config
        = Some (if GetMultizone_Problem config then GetWrt_ZoneConv config else true)) ∧
  (∀ config' k,
     GetWrt_Con_Freq config' = GetWrt_Con_Freq config →
     GetMultizone_Problem config' = GetMultizone_Problem config →
     GetWrt_ZoneConv config' = GetWrt_ZoneConv config →
     GetExtIter config' = GetExtIter config + k * (GetWrt_Con_Freq config * 40) →
     WriteScreen_Header ulong_modulus this config'
     = WriteScreen_Header ulong_modulus this config).
Proof.
  intros Hnonlin Hfreq. unfold WriteScreen_Header. rewrite Hnonlin. split.
  - intros k Hext. rewrite (Z.mod_small (_ * 40)) by lia.
    destruct (Z.eqb_spec (GetWrt_Con_Freq config * 40) 0); [lia|].
    rewrite Hext, Z.mod_mul by done. cbn.
    by destruct (GetMultizone_Problem config).
  - intros config' k Hf Hm Hz Hext. rewrite Hf, Hm, Hz, Hext.
    rewrite (Z.mod_small (_ * 40)) by lia.
    by rewrite Z.mod_add by lia.
Qed.

(** External iterations 80 and 240 with a write frequency of 2. *)
Lemma header_period_witness :
  WriteScreen_Header (2 ^ 64) (sample_object 0 2 false false)
    (sample_config 0 false false false 0 80 2) = Some true ∧
  WriteScreen_Header (2 ^ 64) (sample_object 0 2 false false)
    (sample_config 0 false false false 0 240 2)
  = WriteScreen_Header (2 ^ 64) (sample_object 0 2 false false)
      (sample_config 0 false false false 0 80 2).
Proof.
  assert (0 < GetWrt_Con_Freq (sample_config 0 false false false 0 80 2) * 40 < 2 ^ 64)
    as Hfreq by (cbn; lia).
  destruct (header_period (2 ^ 64) (sample_object 0 2 false false)
              (sample_config 0 false false false 0 80 2) eq_refl Hfreq)
    as [Hmultiple Hperiod].
  split.
  - apply (Hmultiple 1). reflexivity.
  - apply (Hperiod (sample_config 0 false false false 0 240 2) 2); reflexivity.
Defined.

(** X19. Outside multizone runs the three gates never look at the opt-in
    flag: two configurations that are not multizone and agree on the
    iteration counters and the write frequency get the same decisions. *)
Theorem single_zone_ignores_opt_in
    (ulong_modulus : Z) (this : CElasticityOutput) (config config' : CConfig) :
  GetMultizone_Problem config = false →
  GetMultizone_Problem config' = false →
  GetIntIter config = GetIntIter config' →
  GetExtIter config = GetExtIter config' →
  GetWrt_Con_Freq config = GetWrt_Con_Freq config' →
  WriteScreen_Header ulong_modulus this config
  = WriteScreen_Header ulong_modulus this config' ∧
  WriteScreen_Output this config = WriteScreen_Output this config' ∧
  WriteHistoryFile_Output this config = WriteHistoryFile_Output this config'.
Proof.
  intros Hm Hm' Hint Hext Hfreq.
  unfold WriteScreen_Header, WriteScreen_Output, WriteHistoryFile_Output.
  by rewrite Hm, Hm', Hint, Hext, Hfreq.
Qed.

(** The opt-in flag off and on. *)
Lemma single_zone_ignores_opt_in_witness :
  WriteScreen_Header (2 ^ 64) (sample_object 0 2 false false)
    (sample_config 0 false false false 0 80 2)
  = WriteScreen_Header (2 ^ 64) (sample_object 0 2 false false)
      (sample_config 0 false false true 0 80 2) ∧
  WriteScreen_Output (sample_object 0 2 false false)
    (sample_config 0 false false false 0 80 2)
  = WriteScreen_Output (sample_object 0 2 false false)
      (sample_config 0 false false true 0 80 2).
Proof.
  destruct (single_zone_ignores_opt_in (2 ^ 64) (sample_object 0 2 false false)
              (sample_config 0 false false false 0 80 2)
              (sample_config 0 false false true 0 80 2)
              eq_refl eq_refl eq_refl eq_refl eq_refl)
    as (Hheader & Hrow & _).
  split; [exact Hheader | exact Hrow].
Defined.

(** X21. The header decision has a value unless the analysis is not
    nonlinear and 40 times the write frequency is zero as an
    [unsigned long]: a write frequency of zero, or one whose product with
    40 wraps around to zero, leaves the linear branch with a remainder by
    zero. A nonlinear analysis never takes the remainder. *)
Theorem header_defined_iff
    (ulong_modulus : Z) (this : CElasticityOutput) (config : CConfig) :
  is_Some (WriteScreen_Header ulong_modulus this config) ↔
  nonlinear_analysis this = true ∨
  (GetWrt_Con_Freq config * 40) mod ulong_modulus ≠ 0.
Proof.
  unfold WriteScreen_Header.
  destruct (nonlinear_analysis this); cbn.
  - split; [by left | eauto].
  - destruct (Z.eqb_spec ((GetWrt_Con_Freq config * 40) mod ulong_modulus) 0)
      as [Hzero|Hzero]; cbn.
    + split; [by intros [? [=]] | by intros [[=]|?]].
    + split; [by right | eauto].
Qed.

(** ** The convergence field *)

Section ConvergenceDefault.
Context `{OptionStructure}.
Variable log10 : su2double → su2double.

(** X20. After construction the convergence field is never empty: a
    configured one is kept, an empty one becomes [RMS_DISP_X]. The default
    is a registered history field, and [LoadHistoryData] fills it exactly
    when the regime is [SMALL_DEFORMATIONS]. *)
Theorem ctor_convergence_field
    (base : COutput) (config : CConfig) (geometry : CGeometry) (val_iZone : Z)
    (solver : nat → CSolver) :
  Conv_Field (CElasticityOutput_ctor base config geometry val_iZone) ≠ "" ∧
  (Conv_Field base ≠ "" →
   Conv_Field (CElasticityOutput_ctor base config geometry val_iZone) = Conv_Field base) ∧
  (Conv_Field base = "" →
   Conv_Field (CElasticityOutput_ctor base config geometry val_iZone) = "RMS_DISP_X") ∧
  (Conv_Field base = "" →
   ∃ ids record,
     history_catalog (CElasticityOutput_ctor base config geometry val_iZone) config
       = Some ids ∧
     history_iteration log10 (CElasticityOutput_ctor base config geometry val_iZone)
       config geometry solver = Some record ∧
     Conv_Field (CElasticityOutput_ctor base config geometry val_iZone) ∈ ids ∧
     (Conv_Field (CElasticityOutput_ctor base config geometry val_iZone)
        ∈ journal record ↔
      GetGeometricConditions config = SMALL_DEFORMATIONS)).
Proof.
  split_and!.
  - cbn. by destruct (Conv_Field base).
  - intros Hset. cbn. by destruct (Conv_Field base).
  - intros Hempty. cbn. by rewrite Hempty.
  - intros Hempty.
    destruct (history_iteration_Some log10
                (CElasticityOutput_ctor base config geometry val_iZone)
                config geometry solver) as (record & Hrecord & Hjournal).
    exists history_fields, record.
    split; [apply history_catalog_eq|]. split; [done|].
    assert (Conv_Field (CElasticityOutput_ctor base config geometry val_iZone)
            = "RMS_DISP_X") as -> by (cbn; by rewrite Hempty).
    split; [compute_done|].
    rewrite Hjournal, history_writes_spec. cbn [linear_analysis CElasticityOutput_ctor].
    destruct (Z.eqb_spec (GetGeometricConditions config) SMALL_DEFORMATIONS);
      naive_solver.
Qed.

End ConvergenceDefault.

(** No convergence field configured, in a linear analysis. *)
Lemma ctor_convergence_field_witness :
  Conv_Field (fresh_output false) = "" ∧
  ∃ ids record,
    history_catalog (sample_object 0 2 false false)
      (sample_config 0 false false false 0 0 1) = Some ids ∧
    @history_iteration su2_option_structure log10_sample (sample_object 0 2 false false)
      (sample_config 0 false false false 0 0 1) (sample_geometry 2)
      (sample_solver PrimFloat.one) = Some record ∧
    Conv_Field (sample_object 0 2 false false) = "RMS_DISP_X" ∧
    Conv_Field (sample_object 0 2 false false) ∈ ids ∧
    Conv_Field (sample_object 0 2 false false) ∈ journal record.
Proof.
  split; [reflexivity|].
  destruct (@ctor_convergence_field su2_option_structure log10_sample
              (fresh_output false) (sample_config 0 false false false 0 0 1)
              (sample_geometry 2) 0 (sample_solver PrimFloat.one))
    as (_ & _ & Hname & Hdefault).
  destruct (Hdefault eq_refl) as (ids & record & Hids & Hrecord & Hreg & Hwritten).
  exists ids, record. split; [exact Hids|]. split; [exact Hrecord|].
  split; [exact (Hname eq_refl)|].
  split; [exact Hreg | apply Hwritten; reflexivity].
Defined.
